(** * Rule-identifier conflict check ([check_rule_ids.py])

    A shallow embedding of the pre-merge check that compares the numeric
    [id] attributes of [rule] elements in changed rule files against the
    reference branch, together with the properties of its specification.

    Layout: Python strings, the effect monad (printed lines, exceptions,
    [sys.exit]), the functions of the script in source order, then the
    theorems. *)

From Stdlib Require Import ZArith String Ascii.
From stdpp Require Import gmap list sorting.

Set Warnings "-clear-no-such-hyp,-register-all".

Local Open Scope Z_scope.

(** ** Python strings *)

(** A Python [str] is a sequence of Unicode code points. *)
Definition codepoint := N.
Abbreviation pystr := (list N).

(** ASCII literals of the source, as code-point sequences. *)
Definition str (s : string) : pystr := N_of_ascii <$> list_ascii_of_string s.

(** [Py_UNICODE_ISSPACE]: the characters removed by [str.strip()] and
    separating fields in [str.split()]. *)
Definition isspace (c : codepoint) : bool :=
  ((9 <=? c) && (c <=? 13) || (28 <=? c) && (c <=? 32) || (c =? 133)
   || (c =? 160) || (c =? 5760) || (8192 <=? c) && (c <=? 8202)
   || (c =? 8232) || (c =? 8233) || (c =? 8239) || (c =? 8287)
   || (c =? 12288))%N.

(** [Py_UNICODE_ISLINEBREAK]: the line boundaries of [str.splitlines()]. *)
Definition islinebreak (c : codepoint) : bool :=
  ((10 <=? c) && (c <=? 13) || (28 <=? c) && (c <=? 30) || (c =? 133)
   || (c =? 8232) || (c =? 8233))%N.

Fixpoint dropwhile {A} (p : A -> bool) (l : list A) : list A :=
  match l with
  | [] => []
  | x :: l' => if p x then dropwhile p l' else l
  end.

Fixpoint takewhile {A} (p : A -> bool) (l : list A) : list A :=
  match l with
  | [] => []
  | x :: l' => if p x then x :: takewhile p l' else []
  end.

Definition lstrip (s : pystr) : pystr := dropwhile isspace s.
Definition rstrip (s : pystr) : pystr := reverse (dropwhile isspace (reverse s)).
Definition strip (s : pystr) : pystr := rstrip (lstrip s).

(** [str.splitlines()]: [cur] is the line being read (reversed), [after_cr]
    records that the previous character was a carriage return, so that a
    following line feed belongs to the same boundary. *)
Fixpoint splitlines_from (cur : pystr) (after_cr : bool) (s : pystr) : list pystr :=
  match s with
  | [] => match cur with [] => [] | _ => [reverse cur] end
  | c :: s' =>
      if after_cr && (c =? 10)%N then splitlines_from cur false s'
      else if islinebreak c then reverse cur :: splitlines_from [] (c =? 13)%N s'
      else splitlines_from (c :: cur) false s'
  end.

Definition splitlines (s : pystr) : list pystr := splitlines_from [] false s.

(** [str.split(maxsplit=1)]: at most one whitespace-delimited field, then
    the remainder with its leading whitespace skipped. *)
Definition split_maxsplit1 (s : pystr) : list pystr :=
  match lstrip s with
  | [] => []
  | s1 =>
      let field := takewhile (fun c => negb (isspace c)) s1 in
      match lstrip (dropwhile (fun c => negb (isspace c)) s1) with
      | [] => [field]
      | rest => [field; rest]
      end
  end.

Definition startswith (s p : pystr) : bool := bool_decide (take (length p) s = p).
Definition endswith (s p : pystr) : bool :=
  bool_decide (drop (length s - length p) s = p) && (length p <=? length s)%nat.

(** [s[:n]] *)
Definition slice_to (n : nat) (s : pystr) : pystr := take n s.

(** Lexicographic order on code points: Python's [<=] on [str]. *)
Fixpoint pystr_leb (a b : pystr) : bool :=
  match a, b with
  | [], _ => true
  | _ :: _, [] => false
  | x :: a', y :: b' => (x <? y)%N || ((x =? y)%N && pystr_leb a' b')
  end.
Definition pystr_le (a b : pystr) : Prop := pystr_leb a b = true.

#[global] Instance pystr_le_dec a b : Decision (pystr_le a b).
Proof. unfold pystr_le. apply _. Defined.

(** [sorted] on integers and on strings. *)
Definition sorted_ids (l : list Z) : list Z := merge_sort Z.le l.
Definition sorted_strs (l : list pystr) : list pystr := merge_sort pystr_le l.

(** ** [pathlib.Path]

    A path is kept as its list of components: [Path(s)] splits at [/] and
    drops empty and [.] components, which is the normalisation pathlib
    performs on a relative POSIX path. *)
Record Path := mkPath { parts : list pystr }.

Fixpoint split_slash (cur : pystr) (s : pystr) : list pystr :=
  match s with
  | [] => [reverse cur]
  | c :: s' => if (c =? 47)%N then reverse cur :: split_slash [] s'
               else split_slash (c :: cur) s'
  end.

Definition mk_path (s : pystr) : Path :=
  mkPath (filter (fun c => c <> [] /\ c <> str ".") (split_slash [] s)).

Fixpoint join_slash (cs : list pystr) : pystr :=
  match cs with
  | [] => []
  | [c] => c
  | c :: cs' => c ++ str "/" ++ join_slash cs'
  end.

Definition as_posix (p : Path) : pystr :=
  match parts p with [] => str "." | cs => join_slash cs end.

Definition name (p : Path) : pystr := default [] (last (parts p)).

(** ** Exceptions, printed lines and the effect monad *)

(** The exception classes the script distinguishes. [SystemExit] is not
    among them: it derives from [BaseException], so no [except Exception]
    clause catches it; it is an outcome of its own below. *)
Inductive exn :=
  | ParseError (msg : pystr)          (* xml.etree.ElementTree.ParseError *)
  | CalledProcessError (stderr : pystr) (* subprocess.CalledProcessError *)
  | ValueError (literal : pystr)      (* raised by int() *)
  | OtherException (msg : pystr).     (* any other subclass of Exception *)

(** The result of calling into the runtime or a collaborator. *)
Inductive call (A : Type) :=
  | Returns (a : A)
  | Raises (e : exn).
Arguments Returns {A} a.
Arguments Raises {A} e.

(** One constructor per [print] statement of the script, carrying the
    values interpolated into the line. *)
Inductive line :=
  | PGitFailed (args : list pystr)
  | PGitError (stderr : pystr)
  | PFailedChangedFiles (e : exn)
  | PXmlParseError (msg : pystr)
  | PContentPreview (prefix : pystr)
  | PXmlUnexpected (e : exn)
  | PCouldNotReadMain (file : pystr)
  | PFailedMainIds (e : exn)
  | PConflictsDetected
  | PRuleIdFoundIn (rule_id : Z)
  | PFoundInFile (file : pystr)
  | PRangeWarning (ids : list Z)
  | PRangeAdvice
  | PStart
  | PNoRuleFilesChanged
  | PCheckingFiles (names : list pystr)
  | PCheckingFile (name : pystr)
  | PCouldNotRead (name : pystr) (e : exn)
  | PNoRuleIds (name : pystr)
  | PDuplicates (name : pystr) (ids : list Z)
  | PNoConflictsNew (name : pystr)
  | PUnchanged (name : pystr)
  | PModifiedOk (name : pystr)
  | PDeleted (name : pystr)
  | PAllPassed.

(** How a computation ends. *)
Inductive outcome (A : Type) :=
  | Return (a : A)
  | Raise (e : exn)
  | SysExit (code : Z).
Arguments Return {A} a.
Arguments Raise {A} e.
Arguments SysExit {A} code.

(** A computation: the lines it printed, in order, and its outcome. *)
Definition run (A : Type) : Type := list line * outcome A.

Definition ret {A} (a : A) : run A := ([], Return a).
Definition print (l : line) : run unit := ([l], Return tt).
Definition raise {A} (e : exn) : run A := ([], Raise e).
Definition sys_exit {A} (code : Z) : run A := ([], SysExit code).

Definition bind {A B} (m : run A) (k : A -> run B) : run B :=
  match m with
  | (out, Return a) => let (out', r) := k a in (out ++ out', r)
  | (out, Raise e) => (out, Raise e)
  | (out, SysExit c) => (out, SysExit c)
  end.

(** [try: m except ...: h e]; the handler answers [None] for an exception
    class no clause matches, which then propagates. *)
Definition try_except {A} (m : run A) (h : exn -> option (run A)) : run A :=
  match m with
  | (out, Raise e) =>
      match h e with
      | Some k => let (out', r) := k in (out ++ out', r)
      | None => (out, Raise e)
      end
  | _ => m
  end.

Declare Scope run_scope.
Delimit Scope run_scope with run.
Notation "x <- m ;; k" := (bind m (fun x => k))
  (at level 100, m at next level, right associativity) : run_scope.
Notation "m ;; k" := (bind m (fun _ => k))
  (at level 100, right associativity) : run_scope.
Local Open Scope run_scope.

(** [for x in xs: body x] *)
Fixpoint for_each {A} (xs : list A) (body : A -> run unit) : run unit :=
  match xs with
  | [] => ret tt
  | x :: xs' => body x ;; for_each xs' body
  end.

(** The lines a computation printed and the way it ended. *)
Definition printed {A} (m : run A) : list line := fst m.
Definition ended {A} (m : run A) : outcome A := snd m.

(** ** The runtime and the collaborators *)

(** An element of [xml.etree.ElementTree]: tag, attribute dictionary and
    child elements (text and tail are not read by the script). *)
Inductive Element :=
  mkElement (tag : pystr) (attrib : gmap pystr pystr) (children : list Element).

Definition tag (e : Element) : pystr := let 'mkElement t _ _ := e in t.
Definition attrib (e : Element) : gmap pystr pystr := let 'mkElement _ a _ := e in a.
Definition children (e : Element) : list Element := let 'mkElement _ _ c := e in c.

(** What the script takes from the Python runtime: the Unicode database
    behind [str.isdigit] and [int], the interpreter's limit on the length
    of integer literals (0 switches it off), and the XML parser. *)
Class Runtime := {
  (** [Py_UNICODE_ISDIGIT]: Numeric_Type is Digit or Decimal *)
  isdigit_char : codepoint -> bool;
  (** [Py_UNICODE_TODECIMAL]: the value of a Numeric_Type=Decimal character *)
  todecimal : codepoint -> option Z;
  (** [sys.get_int_max_str_digits()] *)
  int_max_str_digits : nat;
  (** [ET.fromstring] *)
  fromstring : pystr -> call Element;
}.

(** The collaborators: the version-control tool and the working tree.
    The tool answers per argument vector: the only command the script
    issues twice, [git show] of one path, reads the same fetched revision
    both times. *)
Class World := {
  (** [subprocess.run(args, capture_output=True, text=True, check=True).stdout] *)
  subprocess_run : list pystr -> call pystr;
  (** [path.read_text(encoding='utf-8')] *)
  read_text : Path -> call pystr;
}.

(** ** The script *)

Section Script.
Context {rt : Runtime} {w : World}.

(** A call into the runtime, as a computation. *)
Definition lift {A} (c : call A) : run A :=
  match c with
  | Returns a => ret a
  | Raises e => raise e
  end.

(** [run_git_command]: the [CalledProcessError] of a failing git command
    is handled here, by printing and leaving the process. *)
Definition run_git_command (args : list pystr) : run pystr :=
  try_except (lift (subprocess_run args))
    (fun e => match e with
              | CalledProcessError stderr =>
                  Some (print (PGitFailed args) ;; print (PGitError stderr) ;;
                        sys_exit 1)
              | _ => None
              end).

(** One line of [git diff --name-status]: the body of the loop of
    [get_changed_rule_files]. *)
Definition changed_file_of_line (l : pystr) : option (pystr * Path) :=
  match split_maxsplit1 (strip l) with
  | [status; file_path] =>
      if startswith file_path (str "rules/") && endswith file_path (str ".xml")
      then Some (status, mk_path file_path)
      else None
  | _ => None
  end.

Definition get_changed_rule_files : run (list (pystr * Path)) :=
  try_except
    (output <- run_git_command
                 [str "git"; str "diff"; str "--name-status"; str "origin/main...HEAD"] ;;
     ret (omap changed_file_of_line (splitlines (strip output))))
    (fun e => Some (print (PFailedChangedFiles e) ;; sys_exit 1)).

(** [str.isdigit()] and [int()] on a string that passed it. Signs,
    underscores and blanks, which [int] would accept, do not pass
    [isdigit], so on the guarded call the conversion is the decimal value
    of the characters or a [ValueError]. *)
Definition isdigit (s : pystr) : bool :=
  forallb isdigit_char s && negb (bool_decide (s = [])).

Definition int (s : pystr) : call Z :=
  if (640 <? length s)%nat && (0 <? int_max_str_digits)%nat
     && (int_max_str_digits <? length s)%nat
  then Raises (ValueError s)
  else match mapM todecimal s with
       | Some ds => Returns (foldl (fun acc d => 10 * acc + d) 0 ds)
       | None => Raises (ValueError s)
       end.

(** [elem.iter()] and [root.findall(".//rule")]: the descendants of the
    root, in document order, whose tag is [rule]. *)
Fixpoint iter (e : Element) : list Element :=
  match e with
  | mkElement _ _ cs => e :: flat_map iter cs
  end.

Definition findall_rule (root : Element) : list Element :=
  filter (fun e => tag e = str "rule") (flat_map iter (children root)).

(** The loop over the [rule] elements. [ids] is the list being appended
    to; the result is its value when the loop is left, and how it is
    left. *)
Fixpoint collect_rule_ids (rules : list Element) (ids : list Z) : list Z * call unit :=
  match rules with
  | [] => (ids, Returns tt)
  | rule :: rules' =>
      match attrib rule !! str "id" with
      | Some rule_id =>
          if negb (bool_decide (rule_id = [])) && isdigit rule_id then
            match int rule_id with
            | Returns n => collect_rule_ids rules' (ids ++ [n])
            | Raises e => (ids, Raises e)
            end
          else collect_rule_ids rules' ids
      | None => collect_rule_ids rules' ids
      end
  end.

(** What one [rule] element contributes when nothing goes wrong: the
    value of its [id], if it has one that passes the digit test. *)
Definition accepted_id (rule : Element) : option Z :=
  match attrib rule !! str "id" with
  | Some rule_id =>
      if isdigit rule_id then
        match int rule_id with Returns n => Some n | Raises _ => None end
      else None
  | None => None
  end.

(** The [try] block of [extract_rule_ids_from_xml]. *)
Definition extract_try (content : pystr) : list Z * call unit :=
  if bool_decide (strip content = []) then ([], Returns tt)
  else
    let wrapped := str "<root>" ++ content ++ str "</root>" in
    match fromstring wrapped with
    | Returns root => collect_rule_ids (findall_rule root) []
    | Raises e => ([], Raises e)
    end.

Definition extract_rule_ids_from_xml (content : pystr) : run (list Z) :=
  let '(ids, r) := extract_try content in
  match r with
  | Returns _ => ret ids
  | Raises (ParseError msg) =>
      print (PXmlParseError msg) ;;
      print (PContentPreview (slice_to 200 content)) ;;
      ret ids
  | Raises e => print (PXmlUnexpected e) ;; ret ids
  end.

(** [rule_id_to_files[rule_id].add(file)] on a [defaultdict(set)]. *)
Definition add_file (file : pystr) (rule_id_to_files : gmap Z (gset pystr))
    (rule_id : Z) : gmap Z (gset pystr) :=
  <[rule_id := default ∅ (rule_id_to_files !! rule_id) ∪ {[file]}]> rule_id_to_files.

Definition git_show_main (file : pystr) : list pystr :=
  [str "git"; str "show"; str "origin/main:" ++ file].

(** The loop of [get_rule_ids_per_file_in_main] over the rule files of
    the reference revision. *)
Fixpoint index_files (xml_files : list pystr) (rule_id_to_files : gmap Z (gset pystr))
    : run (gmap Z (gset pystr)) :=
  match xml_files with
  | [] => ret rule_id_to_files
  | file :: xml_files' =>
      m <- try_except
             (content <- run_git_command (git_show_main file) ;;
              rule_ids <- extract_rule_ids_from_xml content ;;
              ret (foldl (add_file file) rule_id_to_files rule_ids))
             (fun e => match e with
                       | CalledProcessError _ =>
                           Some (print (PCouldNotReadMain file) ;; ret rule_id_to_files)
                       | _ => None
                       end) ;;
      index_files xml_files' m
  end.

Definition is_rule_file (f : pystr) : bool :=
  startswith f (str "rules/") && endswith f (str ".xml").

Definition get_rule_ids_per_file_in_main : run (gmap Z (gset pystr)) :=
  try_except
    (run_git_command [str "git"; str "fetch"; str "origin"; str "main"] ;;
     files_output <- run_git_command
                       [str "git"; str "ls-tree"; str "-r"; str "origin/main"; str "--name-only"] ;;
     let xml_files := filter (fun f => is_rule_file f = true) (splitlines files_output) in
     index_files xml_files ∅)
    (fun e => Some (print (PFailedMainIds e) ;; sys_exit 1)).

Definition get_rule_ids_from_main_version (file_path : Path) : run (list Z) :=
  try_except
    (content <- run_git_command (git_show_main (as_posix file_path)) ;;
     extract_rule_ids_from_xml content)
    (fun e => match e with
              | CalledProcessError _ => Some (ret [])
              | _ => None
              end).

(** [collections.Counter]: a dictionary from value to count, kept in the
    order in which the values were first seen. *)
Fixpoint counter_add (x : Z) (c : list (Z * nat)) : list (Z * nat) :=
  match c with
  | [] => [(x, 1%nat)]
  | (y, n) :: c' =>
      if bool_decide (x = y) then (y, S n) :: c' else (y, n) :: counter_add x c'
  end.

Definition Counter (l : list Z) : list (Z * nat) :=
  foldl (fun c x => counter_add x c) [] l.

(** The count a [Counter] holds for a value: [c[y]]. *)
Fixpoint counter_get (c : list (Z * nat)) (y : Z) : nat :=
  match c with
  | [] => 0
  | (k, n) :: c' => ((if bool_decide (k = y) then n else 0) + counter_get c' y)%nat
  end.

Definition detect_duplicates (rule_ids : list Z) : list Z :=
  omap (fun '(rule_id, count) => if (1 <? count)%nat then Some rule_id else None)
       (Counter rule_ids).

Definition print_conflicts (conflicting_ids : gset Z)
    (rule_id_to_files : gmap Z (gset pystr)) : run unit :=
  print PConflictsDetected ;;
  for_each (sorted_ids (elements conflicting_ids)) (fun rule_id =>
    let files := default ∅ (rule_id_to_files !! rule_id) in
    print (PRuleIdFoundIn rule_id) ;;
    for_each (sorted_strs (elements files)) (fun f => print (PFoundInFile f))).

Definition in_range (rule_id : Z) : bool :=
  (100000 <=? rule_id) && (rule_id <=? 120000).

Definition validate_rule_id_range (rule_ids : list Z) : run unit :=
  let invalid_ids := filter (fun rule_id => in_range rule_id = false) rule_ids in
  match invalid_ids with
  | _ :: _ => print (PRangeWarning (sorted_ids invalid_ids)) ;; print PRangeAdvice
  | [] => ret tt
  end.

(** [set(l)] *)
Definition set_of (l : list Z) : gset Z := list_to_set l.

(** The body of the loop of [main] once [dev_ids] has been extracted:
    the range advisory, the duplicate check and the reconciliation by
    status. *)
Definition check_ids (rule_id_to_files_main : gmap Z (gset pystr))
    (status : pystr) (path : Path) (dev_ids : list Z) : run unit :=
  match dev_ids with
  | [] => print (PNoRuleIds (name path))
  | _ =>
      validate_rule_id_range dev_ids ;;
      let duplicates := detect_duplicates dev_ids in
      match duplicates with
      | _ :: _ =>
          print (PDuplicates (name path) (sorted_ids duplicates)) ;; sys_exit 1
      | [] =>
          if bool_decide (status = str "A") then
            let conflicting_ids := set_of dev_ids ∩ dom rule_id_to_files_main in
            if bool_decide (conflicting_ids <> ∅)
            then print_conflicts conflicting_ids rule_id_to_files_main ;; sys_exit 1
            else print (PNoConflictsNew (name path))
          else if bool_decide (status = str "M") then
            main_ids <- get_rule_ids_from_main_version path ;;
            if bool_decide (set_of dev_ids = set_of main_ids)
            then print (PUnchanged (name path))
            else
              let new_or_changed_ids := set_of dev_ids ∖ set_of main_ids in
              let conflicting_ids := new_or_changed_ids ∩ dom rule_id_to_files_main in
              if bool_decide (conflicting_ids <> ∅)
              then print_conflicts conflicting_ids rule_id_to_files_main ;; sys_exit 1
              else print (PModifiedOk (name path))
          else if bool_decide (status = str "D") then
            print (PDeleted (name path))
          else ret tt
      end
  end.

(** The whole body of the loop of [main] for one changed file. *)
Definition check_file (rule_id_to_files_main : gmap Z (gset pystr))
    (changed : pystr * Path) : run unit :=
  let '(status, path) := changed in
  print (PCheckingFile (name path)) ;;
  read <- try_except
            (dev_content <- lift (read_text path) ;;
             dev_ids <- extract_rule_ids_from_xml dev_content ;;
             ret (Some dev_ids))
            (fun e => Some (print (PCouldNotRead (name path) e) ;; ret None)) ;;
  match read with
  | None => ret tt
  | Some dev_ids => check_ids rule_id_to_files_main status path dev_ids
  end.

Definition main : run unit :=
  print PStart ;;
  changed_files <- get_changed_rule_files ;;
  match changed_files with
  | [] => print PNoRuleFilesChanged
  | _ =>
      rule_id_to_files_main <- get_rule_ids_per_file_in_main ;;
      print (PCheckingFiles (name ∘ snd <$> changed_files)) ;;
      for_each changed_files (check_file rule_id_to_files_main) ;;
      print PAllPassed
  end.

End Script.

(** The exit status of the process: 0 when [main] returns, the argument
    of [sys.exit], and 1 for an exception nobody caught. *)
Definition exit_status (m : run unit) : Z :=
  match ended m with
  | Return _ => 0
  | SysExit code => code
  | Raise _ => 1
  end.

(** The files that own an identifier in the index:
    [rule_id_to_files.get(rule_id, set())]. *)
Definition owners (rule_id_to_files : gmap Z (gset pystr)) (rule_id : Z) : gset pystr :=
  default ∅ (rule_id_to_files !! rule_id).

(** The lines of a conflict report: the heading, then each conflicting
    identifier in increasing order, followed by the files of the
    reference revision that own it, in lexicographic order. *)
Definition conflict_lines (rule_id_to_files : gmap Z (gset pystr))
    (conflicting_ids : gset Z) : list line :=
  PConflictsDetected ::
  flat_map (fun rule_id =>
              PRuleIdFoundIn rule_id ::
              (PFoundInFile <$> sorted_strs (elements (owners rule_id_to_files rule_id))))
           (sorted_ids (elements conflicting_ids)).

(** The lines of the range advisory. *)
Definition range_lines (rule_ids : list Z) : list line :=
  match filter (fun rule_id => in_range rule_id = false) rule_ids with
  | [] => []
  | invalid_ids => [PRangeWarning (sorted_ids invalid_ids); PRangeAdvice]
  end.

(** ** A sample runtime and sample repositories

    Concrete instances on which the general statements below are
    exercised. The Unicode rows are those of ASCII digits, ARABIC-INDIC
    digits (both Numeric_Type=Decimal) and SUPERSCRIPT ONE, TWO and THREE
    (Numeric_Type=Digit); the parser answers on the listed documents. *)

Definition sample_isdigit_char (c : codepoint) : bool :=
  ((48 <=? c) && (c <=? 57) || (1632 <=? c) && (c <=? 1641)
   || (c =? 178) || (c =? 179) || (c =? 185))%N.

Definition sample_todecimal (c : codepoint) : option Z :=
  if ((48 <=? c) && (c <=? 57))%N then Some (Z.of_N c - 48)
  else if ((1632 <=? c) && (c <=? 1641))%N then Some (Z.of_N c - 1632)
  else None.

Definition assoc {K V} `{EqDecision K} (t : list (K * V)) (k : K) : option V :=
  match list_find (fun kv => kv.1 = k) t with
  | Some (_, (_, v)) => Some v
  | None => None
  end.

Definition rule_element (rule_id : pystr) : Element :=
  mkElement (str "rule") {[ str "id" := rule_id ]} [].

Definition rule_text (rule_id : pystr) : pystr :=
  str "<rule id='" ++ rule_id ++ str "'/>".

Definition wrap (content : pystr) : pystr :=
  str "<root>" ++ content ++ str "</root>".

Definition SUPERSCRIPT_TWO : pystr := [178%N].

Definition document_text (ids : list pystr) : pystr :=
  concat (rule_text <$> ids).

(** The documents the sample parser knows, each with the children of the
    synthetic root it parses to; every other input is reported as not
    well-formed. *)
Definition rules_document (ids : list pystr) : pystr * list Element :=
  (document_text ids, rule_element <$> ids).

Definition sample_documents : list (pystr * list Element) :=
  [ rules_document [str "100010"];
    rules_document [str "100020"];
    rules_document [str "100020"; str "100021"];
    rules_document [str "100020"; str "100010"];
    rules_document [str "100050"; str "100050"];
    rules_document [str "99999"; str "120001"];
    rules_document [str "100001"; SUPERSCRIPT_TWO; str "100002"];
    rules_document [SUPERSCRIPT_TWO; str "100001"];
    rules_document [str "100030"; str "abc"; str "12a"];
    (str "<group name='local'/>",
     [mkElement (str "group") {[ str "name" := str "local" ]} []]) ].

Definition sample_fromstring (s : pystr) : call Element :=
  match list_find (fun doc => wrap doc.1 = s) sample_documents with
  | Some (_, (_, elements)) => Returns (mkElement (str "root") ∅ elements)
  | None => Raises (ParseError (str "not well-formed (invalid token)"))
  end.

Definition sample_runtime : Runtime :=
  {| isdigit_char := sample_isdigit_char;
     todecimal := sample_todecimal;
     int_max_str_digits := 4300;
     fromstring := sample_fromstring |}.

Definition TAB : pystr := [9%N].
Definition LF : pystr := [10%N].

(** A repository given by the output of the diff, the tree listing of the
    reference revision, the content of its files and the working tree. A
    path missing from [main_files] makes [git show] fail, one missing from
    [work_files] makes the read fail. *)
Record repository := {
  diff_output : pystr;
  tree_output : pystr;
  main_files : list (pystr * pystr);
  work_files : list (pystr * pystr);
}.

Definition no_such_path : pystr := str "fatal: path does not exist in 'origin/main'".

Definition world_of (r : repository) : World :=
  {| subprocess_run args :=
       if bool_decide (args = [str "git"; str "diff"; str "--name-status"; str "origin/main...HEAD"])
       then Returns (diff_output r)
       else if bool_decide (args = [str "git"; str "fetch"; str "origin"; str "main"])
       then Returns []
       else if bool_decide (args = [str "git"; str "ls-tree"; str "-r"; str "origin/main"; str "--name-only"])
       then Returns (tree_output r)
       else match args with
            | [_; _; spec] =>
                match assoc (main_files r) (drop 12 spec) with
                | Some content => Returns content
                | None => Raises (CalledProcessError no_such_path)
                end
            | _ => Raises (CalledProcessError (str "usage"))
            end;
     read_text p :=
       match assoc (work_files r) (as_posix p) with
       | Some content => Returns content
       | None => Raises (OtherException (str "No such file or directory"))
       end |}.

(** The scenario of the specification: the reference revision has
    [rules/a.xml] with identifier 100010, the change-set adds
    [rules/b.xml] with the same identifier. *)
Definition repo_added_conflict : repository :=
  {| diff_output := str "A" ++ TAB ++ str "rules/b.xml" ++ LF;
     tree_output := str "README.md" ++ LF ++ str "rules/a.xml" ++ LF;
     main_files := [(str "rules/a.xml", document_text [str "100010"])];
     work_files := [(str "rules/b.xml", document_text [str "100010"])] |}.

(** [rules/c.xml], which declares 100020 in the reference revision, is
    modified and now declares [working_ids]. *)
Definition repo_modified (working_ids : list pystr) : repository :=
  {| diff_output := str "M" ++ TAB ++ str "rules/c.xml" ++ LF;
     tree_output := str "rules/a.xml" ++ LF ++ str "rules/c.xml" ++ LF;
     main_files := [(str "rules/a.xml", document_text [str "100010"]);
                    (str "rules/c.xml", document_text [str "100020"])];
     work_files := [(str "rules/c.xml", document_text working_ids)] |}.

(** [rules/e.xml] is modified in the change-set but absent from the
    reference revision. *)
Definition repo_modified_absent : repository :=
  {| diff_output := str "M" ++ TAB ++ str "rules/e.xml" ++ LF;
     tree_output := str "rules/a.xml" ++ LF;
     main_files := [(str "rules/a.xml", document_text [str "100010"])];
     work_files := [(str "rules/e.xml", document_text [str "100020"])] |}.

(** The reference tree lists [rules/a.xml] and [rules/u.xml], and the
    content of [rules/u.xml] cannot be fetched. *)
Definition repo_unfetchable : repository :=
  {| diff_output := str "A" ++ TAB ++ str "rules/b.xml" ++ LF;
     tree_output := str "rules/u.xml" ++ LF ++ str "rules/a.xml" ++ LF;
     main_files := [(str "rules/a.xml", document_text [str "100010"])];
     work_files := [(str "rules/b.xml", document_text [str "100020"])] |}.

(** A file declaring 100050 twice, in the working tree and in the
    reference revision. *)
Definition repo_duplicate (status : pystr) : repository :=
  {| diff_output := status ++ TAB ++ str "rules/d.xml" ++ LF;
     tree_output := str "rules/d.xml" ++ LF;
     main_files := [(str "rules/d.xml", document_text [str "100050"; str "100050"])];
     work_files := [(str "rules/d.xml", document_text [str "100050"; str "100050"])] |}.

(** The index of the reference revision of [repo_duplicate]. *)
Definition duplicate_index : gmap Z (gset pystr) :=
  {[ 100050 := {[ str "rules/d.xml" ]} ]}.

Definition sample_index : gmap Z (gset pystr) :=
  {[ 100010 := {[ str "rules/a.xml" ]}; 100020 := {[ str "rules/c.xml" ]} ]}.

(** ** Further notions and samples for the properties of the whole script *)

(** A computation fails loudly when every [sys.exit] it runs into has
    status 1 and comes after at least one printed line. *)
Definition fails_loudly {A} (m : run A) : Prop :=
  forall code, ended m = SysExit code -> code = 1 /\ printed m <> [].

(** The identifier a line of a conflict report announces. *)
Definition reported_id (l : line) : option Z :=
  match l with
  | PRuleIdFoundIn rule_id => Some rule_id
  | _ => None
  end.

(** The warning of the loop over the reference files. *)
Definition is_could_not_read_main (l : line) : bool :=
  match l with
  | PCouldNotReadMain _ => true
  | _ => false
  end.

(** The rule files of a tree listing, as [get_rule_ids_per_file_in_main]
    selects them. *)
Definition rule_files_of (files_output : pystr) : list pystr :=
  filter (fun f => is_rule_file f = true) (splitlines files_output).

Definition GIT_DIFF : list pystr :=
  [str "git"; str "diff"; str "--name-status"; str "origin/main...HEAD"].

Definition GIT_LS_TREE : list pystr :=
  [str "git"; str "ls-tree"; str "-r"; str "origin/main"; str "--name-only"].

(** A repository in which only the diff can be obtained: it lists no
    rule file, and every other git command fails. *)
Definition world_diff_only : World :=
  {| subprocess_run args :=
       if bool_decide (args = GIT_DIFF)
       then Returns (str "M" ++ TAB ++ str "README.md" ++ LF)
       else Raises (CalledProcessError (str "fatal: unable to access remote"));
     read_text p := Raises (OtherException (str "No such file or directory")) |}.

(** Three changed files: [rules/n.xml] is new with identifiers outside
    the recommended range, [rules/b.xml] is new and takes 100010 from
    [rules/a.xml], [rules/c.xml] is modified. *)
Definition repo_three_changed : repository :=
  {| diff_output := str "A" ++ TAB ++ str "rules/n.xml" ++ LF
                    ++ str "A" ++ TAB ++ str "rules/b.xml" ++ LF
                    ++ str "M" ++ TAB ++ str "rules/c.xml" ++ LF;
     tree_output := str "rules/a.xml" ++ LF ++ str "rules/c.xml" ++ LF;
     main_files := [(str "rules/a.xml", document_text [str "100010"]);
                    (str "rules/c.xml", document_text [str "100020"])];
     work_files := [(str "rules/n.xml", document_text [str "99999"; str "120001"]);
                    (str "rules/b.xml", document_text [str "100010"]);
                    (str "rules/c.xml", document_text [str "100020"; str "100021"])] |}.

(** A file whose type changed (status [T]), declaring an identifier
    that [rules/a.xml] owns. *)
Definition repo_type_changed : repository :=
  {| diff_output := str "T" ++ TAB ++ str "rules/b.xml" ++ LF;
     tree_output := str "rules/a.xml" ++ LF;
     main_files := [(str "rules/a.xml", document_text [str "100010"])];
     work_files := [(str "rules/b.xml", document_text [str "100010"])] |}.

(** [rules/b.xml] is new and not well-formed: its only [rule] element,
    with an identifier that [rules/a.xml] owns, is never closed. *)
Definition repo_malformed : repository :=
  {| diff_output := str "A" ++ TAB ++ str "rules/b.xml" ++ LF;
     tree_output := str "rules/a.xml" ++ LF;
     main_files := [(str "rules/a.xml", document_text [str "100010"])];
     work_files := [(str "rules/b.xml", str "<rule id='100010'>")] |}.

(** [rules/c.xml] declares 100020 and 100021 in the reference revision
    and only 100020 in the working tree. *)
Definition repo_removed_id : repository :=
  {| diff_output := str "M" ++ TAB ++ str "rules/c.xml" ++ LF;
     tree_output := str "rules/c.xml" ++ LF;
     main_files := [(str "rules/c.xml", document_text [str "100020"; str "100021"])];
     work_files := [(str "rules/c.xml", document_text [str "100020"])] |}.

(** ** The effect monad *)

Section Monad.
Context {A B : Type}.

Lemma bind_return (out : list line) (a : A) (k : A -> run B) :
  bind (out, Return a) k = (out ++ printed (k a), ended (k a)).
Proof. unfold bind, printed, ended. by destruct (k a). Qed.

Lemma bind_ret (a : A) (k : A -> run B) : bind (ret a) k = k a.
Proof. unfold ret. rewrite bind_return. by destruct (k a). Qed.

Lemma bind_exit (out : list line) (c : Z) (k : A -> run B) :
  bind (out, SysExit c) k = (out, SysExit c).
Proof. reflexivity. Qed.

Lemma bind_raise (out : list line) (e : exn) (k : A -> run B) :
  bind (out, Raise e) k = (out, Raise e).
Proof. reflexivity. Qed.

Lemma run_eta (m : run A) : m = (printed m, ended m).
Proof. by destruct m. Qed.

Lemma try_except_not_raised (m : run A) h :
  (forall e, ended m <> Raise e) -> try_except m h = m.
Proof. destruct m as [out [a|e|c]]; simpl; intros H; [done| |done]. by destruct (H e). Qed.

End Monad.

Lemma bind_print {B} (l : line) (k : unit -> run B) :
  bind (print l) k = (l :: printed (k tt), ended (k tt)).
Proof. unfold print. by rewrite bind_return. Qed.

(** A loop whose body always returns prints the lines of its rounds, in
    order, and returns. *)
Lemma for_each_returns {A} (xs : list A) (body : A -> run unit) :
  (forall x, x ∈ xs -> ended (body x) = Return tt) ->
  for_each xs body = (flat_map (fun x => printed (body x)) xs, Return tt).
Proof.
  induction xs as [|x xs IH]; intros Hbody; [done|].
  simpl. rewrite (run_eta (body x)), Hbody by left.
  rewrite bind_return, IH; [done|]. intros y Hy. apply Hbody. by right.
Qed.

(** A loop stops at the first round that leaves the process: the rounds
    after it print nothing. *)
Lemma for_each_fail_fast {A} (before after : list A) (x : A) (body : A -> run unit) c :
  (forall y, y ∈ before -> ended (body y) = Return tt) ->
  ended (body x) = SysExit c ->
  for_each (before ++ x :: after) body
  = (flat_map (fun y => printed (body y)) before ++ printed (body x), SysExit c).
Proof.
  induction before as [|y before IH]; intros Hbefore Hx; simpl.
  - rewrite (run_eta (body x)), Hx. reflexivity.
  - rewrite (run_eta (body y)), Hbefore by left.
    rewrite bind_return, IH; [|intros z Hz; apply Hbefore; by right|done].
    simpl. by rewrite app_assoc.
Qed.

(** ** The extractor *)

Section Extractor.
Context {rt : Runtime}.

Lemma int_raises_ValueError (s : pystr) (e : exn) :
  int s = Raises e -> e = ValueError s.
Proof.
  unfold int. destruct (_ && _); [congruence|].
  destruct (mapM todecimal s); congruence.
Qed.

(** The extractor returns whatever the list [ids] holds when its [try]
    block is left, however it is left. *)
Lemma extract_ended (content : pystr) :
  ended (extract_rule_ids_from_xml content) = Return (extract_try content).1.
Proof.
  unfold extract_rule_ids_from_xml.
  destruct (extract_try content) as [ids [[]|[]]]; reflexivity.
Qed.

(** The lines the extractor can print. *)
Lemma extract_printed (content : pystr) :
  printed (extract_rule_ids_from_xml content) = []
  \/ (exists msg, printed (extract_rule_ids_from_xml content)
                  = [PXmlParseError msg; PContentPreview (slice_to 200 content)])
  \/ (exists e, printed (extract_rule_ids_from_xml content) = [PXmlUnexpected e]).
Proof.
  unfold extract_rule_ids_from_xml.
  destruct (extract_try content) as [ids [[]|[]]]; simpl; eauto.
Qed.

(** The loop only ever appends to [ids]. *)
Lemma collect_rule_ids_acc (rules : list Element) (ids : list Z) :
  collect_rule_ids rules ids
  = (ids ++ (collect_rule_ids rules []).1, (collect_rule_ids rules []).2).
Proof.
  revert ids. induction rules as [|rule rules IH]; intros ids; simpl.
  - by rewrite app_nil_r.
  - destruct (attrib rule !! str "id") as [rule_id|]; [|apply IH].
    destruct (_ && _); [|apply IH].
    destruct (int rule_id) as [n|e]; simpl; [|by rewrite app_nil_r].
    rewrite (IH (ids ++ [n])), (IH [n]). simpl. by rewrite <- app_assoc.
Qed.

Lemma collect_rule_ids_app (before after : list Element) (ids ids' : list Z) :
  collect_rule_ids before ids = (ids', Returns tt) ->
  collect_rule_ids (before ++ after) ids = collect_rule_ids after ids'.
Proof.
  revert ids. induction before as [|rule before IH]; intros ids; simpl.
  - congruence.
  - destruct (attrib rule !! str "id") as [rule_id|]; [|apply IH].
    destruct (_ && _); [|apply IH].
    destruct (int rule_id) as [n|e]; [apply IH|congruence].
Qed.

Lemma isdigit_nonempty (s : pystr) : isdigit s = true -> s <> [].
Proof.
  unfold isdigit. intros [_ H]%andb_prop.
  by apply negb_true_iff, bool_decide_eq_false in H.
Qed.

(** If every identifier that passes the digit test also converts, the
    loop returns the accepted identifiers of all elements, in order. *)
Lemma collect_rule_ids_convertible (rules : list Element) :
  (forall rule rule_id, rule ∈ rules -> attrib rule !! str "id" = Some rule_id ->
     isdigit rule_id = true -> exists n, int rule_id = Returns n) ->
  collect_rule_ids rules [] = (omap accepted_id rules, Returns tt).
Proof.
  induction rules as [|rule rules IH]; intros Hconv; [done|].
  assert (IH' : collect_rule_ids rules [] = (omap accepted_id rules, Returns tt)).
  { apply IH. intros r v Hr. apply Hconv. by right. }
  simpl. unfold accepted_id at 1.
  destruct (attrib rule !! str "id") as [rule_id|] eqn:Hid; [|done].
  destruct (isdigit rule_id) eqn:Hdigit.
  - destruct (Hconv rule rule_id) as [n Hn]; [by left|done|done|].
    rewrite Hn. rewrite (bool_decide_eq_false_2 (rule_id = [])), collect_rule_ids_acc, IH';
      [done|by apply isdigit_nonempty].
  - by rewrite andb_false_r.
Qed.

(** An identifier with a character that is not a digit fails the test,
    whatever surrounds that character. *)
Lemma isdigit_all_digits (s : pystr) (c : codepoint) :
  c ∈ s -> isdigit_char c = false -> isdigit s = false.
Proof.
  intros Hc Hnot. unfold isdigit. apply andb_false_iff. left.
  apply not_true_iff_false. intros Hall.
  rewrite forallb_forall in Hall. apply list_elem_of_In, Hall in Hc. congruence.
Qed.

End Extractor.

(** C7: empty content and parseable content without [rule] elements give
    the empty sequence and print nothing; content that does not parse
    even inside the synthetic root gives the empty sequence after the
    parser's message and the first 200 characters of the content; in no
    case does the extractor raise or leave the process. *)
Theorem extract_empty_or_unparseable {rt : Runtime} (content : pystr) :
  (strip content = [] -> extract_rule_ids_from_xml content = ([], Return []))
  /\ (forall root, fromstring (wrap content) = Returns root ->
        findall_rule root = [] ->
        extract_rule_ids_from_xml content = ([], Return []))
  /\ (forall msg, strip content <> [] ->
        fromstring (wrap content) = Raises (ParseError msg) ->
        extract_rule_ids_from_xml content
        = ([PXmlParseError msg; PContentPreview (take 200 content)], Return []))
  /\ (exists ids, ended (extract_rule_ids_from_xml content) = Return ids).
Proof.
  unfold extract_rule_ids_from_xml, extract_try, wrap.
  repeat split.
  - intros Hempty. by rewrite bool_decide_eq_true_2.
  - intros root Hroot Hnone. case_bool_decide; [done|]. by rewrite Hroot, Hnone.
  - intros msg Hstrip Hparse. by rewrite bool_decide_eq_false_2, Hparse.
  - case_bool_decide; [by eexists|].
    destruct (fromstring _) as [root|[]]; simpl; eauto.
    destruct (collect_rule_ids _ _) as [ids [[]|[]]]; simpl; eauto.
Qed.

Lemma extract_empty_or_unparseable_witness :
  @extract_rule_ids_from_xml sample_runtime (str "  ") = ([], Return [])
  /\ @extract_rule_ids_from_xml sample_runtime (str "<group name='local'/>")
     = ([], Return [])
  /\ @extract_rule_ids_from_xml sample_runtime (str "<rule id='100010'>")
     = ([PXmlParseError (str "not well-formed (invalid token)");
         PContentPreview (str "<rule id='100010'>")], Return []).
Proof.
  split; [|split].
  - apply (proj1 (@extract_empty_or_unparseable sample_runtime (str "  "))).
    reflexivity.
  - apply (proj1 (proj2 (@extract_empty_or_unparseable sample_runtime
                           (str "<group name='local'/>")))
             (mkElement (str "root") ∅
                [mkElement (str "group") {[ str "name" := str "local" ]} []])).
    + reflexivity.
    + reflexivity.
  - apply (proj1 (proj2 (proj2 (@extract_empty_or_unparseable sample_runtime
                                  (str "<rule id='100010'>"))))
             (str "not well-formed (invalid token)")).
    + discriminate.
    + reflexivity.
Defined.

(** C10: the extractor returns a list for every input. An exception of
    the parser, whichever its class, is caught and reported; when an
    identifier passes the digit test and its conversion raises, the
    identifiers appended before that element are returned. *)
Theorem extract_total {rt : Runtime} (content : pystr) :
  (exists out ids, extract_rule_ids_from_xml content = (out, Return ids))
  /\ (forall e, strip content <> [] -> fromstring (wrap content) = Raises e ->
        exists l out, extract_rule_ids_from_xml content = (l :: out, Return []))
  /\ (forall root before rule after rule_id e ids,
        strip content <> [] ->
        fromstring (wrap content) = Returns root ->
        findall_rule root = before ++ rule :: after ->
        collect_rule_ids before [] = (ids, Returns tt) ->
        attrib rule !! str "id" = Some rule_id ->
        isdigit rule_id = true ->
        int rule_id = Raises e ->
        extract_rule_ids_from_xml content = ([PXmlUnexpected e], Return ids)).
Proof.
  repeat split.
  - exists (printed (extract_rule_ids_from_xml content)), (extract_try content).1.
    rewrite <- extract_ended. apply run_eta.
  - intros e Hstrip Hparse.
    unfold extract_rule_ids_from_xml, extract_try. fold (wrap content).
    rewrite bool_decide_eq_false_2, Hparse by done.
    destruct e; simpl; eauto.
  - intros root before rule after rule_id e ids Hstrip Hroot Hrules Hbefore Hid Hdigit Hint.
    unfold extract_rule_ids_from_xml, extract_try. fold (wrap content).
    rewrite bool_decide_eq_false_2, Hroot, Hrules by done.
    rewrite (collect_rule_ids_app _ _ _ _ Hbefore). simpl.
    rewrite Hid, Hdigit, Hint, (bool_decide_eq_false_2 (rule_id = []))
      by by apply isdigit_nonempty.
    simpl. by rewrite (int_raises_ValueError _ _ Hint).
Qed.

Lemma extract_total_witness :
  (exists l out, @extract_rule_ids_from_xml sample_runtime (str "<rule id='100010'>")
                 = (l :: out, Return []))
  /\ @extract_rule_ids_from_xml sample_runtime
       (document_text [str "100001"; SUPERSCRIPT_TWO; str "100002"])
     = ([PXmlUnexpected (ValueError SUPERSCRIPT_TWO)], Return [100001]).
Proof.
  split.
  { apply (proj1 (proj2 (@extract_total sample_runtime (str "<rule id='100010'>")))
             (ParseError (str "not well-formed (invalid token)"))).
    - discriminate.
    - reflexivity. }
  apply (proj2 (proj2 (@extract_total sample_runtime
                         (document_text [str "100001"; SUPERSCRIPT_TWO; str "100002"])))
           (mkElement (str "root") ∅
              (rule_element <$> [str "100001"; SUPERSCRIPT_TWO; str "100002"]))
           [rule_element (str "100001")] (rule_element SUPERSCRIPT_TWO)
           [rule_element (str "100002")] SUPERSCRIPT_TWO).
  - discriminate.
  - reflexivity.
  - reflexivity.
  - reflexivity.
  - reflexivity.
  - reflexivity.
  - reflexivity.
Defined.

(** ** Sorting and counting *)

Lemma elem_of_sorted_ids (x : Z) (l : list Z) : x ∈ sorted_ids l <-> x ∈ l.
Proof. unfold sorted_ids. by rewrite merge_sort_Permutation. Qed.

Lemma elem_of_sorted_strs (x : pystr) (l : list pystr) : x ∈ sorted_strs l <-> x ∈ l.
Proof. unfold sorted_strs. by rewrite merge_sort_Permutation. Qed.

Lemma sorted_ids_nil_inv (l : list Z) : sorted_ids l = [] -> l = [].
Proof.
  intros H. apply Permutation_nil_r. rewrite <- H. unfold sorted_ids.
  by rewrite merge_sort_Permutation.
Qed.

Section Counter.
Local Open Scope nat_scope.

Lemma counter_get_add (c : list (Z * nat)) (x y : Z) :
  counter_get (counter_add x c) y
  = counter_get c y + (if bool_decide (x = y) then 1 else 0).
Proof.
  induction c as [|[k n] c IH]; simpl.
  - lia.
  - destruct (decide (x = k)) as [->|Hxk].
    + rewrite (bool_decide_eq_true_2 (k = k)) by done. simpl.
      repeat case_bool_decide; lia.
    + rewrite (bool_decide_eq_false_2 (x = k)) by done. simpl. rewrite IH. lia.
Qed.

Lemma counter_add_keys (c : list (Z * nat)) (x : Z) :
  (counter_add x c).*1 = if bool_decide (x ∈ c.*1) then c.*1 else c.*1 ++ [x].
Proof.
  induction c as [|[k n] c IH]; csimpl; [done|].
  destruct (decide (x = k)) as [->|Hxk].
  - rewrite (bool_decide_eq_true_2 (k = k)) by done. csimpl.
    rewrite bool_decide_eq_true_2; [done|by left].
  - rewrite (bool_decide_eq_false_2 (x = k)) by done. csimpl. rewrite IH.
    repeat case_bool_decide; set_solver.
Qed.

Lemma counter_add_NoDup (c : list (Z * nat)) (x : Z) :
  NoDup c.*1 -> NoDup (counter_add x c).*1.
Proof.
  intros Hc. rewrite counter_add_keys. case_bool_decide; [done|].
  apply NoDup_app. split_and!; [done|set_solver|apply NoDup_singleton].
Qed.

Lemma counter_get_absent (c : list (Z * nat)) (y : Z) :
  y ∉ c.*1 -> counter_get c y = 0.
Proof.
  induction c as [|[k n] c IH]; simpl; [done|].
  intros Hy. rewrite IH by set_solver.
  rewrite bool_decide_eq_false_2; [done|set_solver].
Qed.

Lemma counter_get_entry (c : list (Z * nat)) (y : Z) (n : nat) :
  NoDup c.*1 -> (y, n) ∈ c -> counter_get c y = n.
Proof.
  induction c as [|[k m] c IH]; simpl; [by intros _ ?%elem_of_nil|].
  rewrite NoDup_cons. intros [Hk Hc] [Heq|Hin]%elem_of_cons.
  - injection Heq as <- <-. rewrite bool_decide_eq_true_2, counter_get_absent by done. lia.
  - rewrite IH by done. rewrite bool_decide_eq_false_2; [done|].
    intros ->. apply Hk. apply list_elem_of_fmap. by exists (y, n).
Qed.

Lemma Counter_fold (l : list Z) (c : list (Z * nat)) :
  NoDup c.*1 ->
  NoDup (foldl (fun c x => counter_add x c) c l).*1
  /\ forall y, counter_get (foldl (fun c x => counter_add x c) c l) y
               = counter_get c y + count_occ Z.eq_dec l y.
Proof.
  revert c. induction l as [|x l IH]; intros c Hc; simpl.
  - split; [done|]. intros; lia.
  - destruct (IH (counter_add x c)) as [Hnd Hget]; [by apply counter_add_NoDup|].
    split; [done|]. intros y. rewrite Hget, counter_get_add.
    destruct (Z.eq_dec x y); case_bool_decide; try done; lia.
Qed.

(** [Counter] counts: every value of the list has one entry, holding the
    number of its occurrences. *)
Lemma Counter_counts (l : list Z) :
  NoDup (Counter l).*1
  /\ forall y, counter_get (Counter l) y = count_occ Z.eq_dec l y.
Proof.
  destruct (Counter_fold l []) as [Hnd Hget]; [apply NoDup_nil_2|].
  split; [done|]. intros y. by rewrite Hget.
Qed.

(** [detect_duplicates] returns exactly the values that occur more than
    once. *)
Lemma elem_of_detect_duplicates (l : list Z) (x : Z) :
  x ∈ detect_duplicates l <-> 1 < count_occ Z.eq_dec l x.
Proof.
  destruct (Counter_counts l) as [Hnd Hget].
  unfold detect_duplicates. rewrite list_elem_of_omap. split.
  - intros [[k n] [Hin Hsome]]. destruct (1 <? n) eqn:Hn; [|done].
    injection Hsome as ->. rewrite <- Hget, (counter_get_entry _ _ n) by done.
    by apply Nat.ltb_lt.
  - intros Hcount. rewrite <- Hget in Hcount.
    destruct (decide (x ∈ (Counter l).*1)) as [Hkey|Hkey].
    + apply list_elem_of_fmap in Hkey as [[k n] [-> Hin]]. exists (k, n).
      split; [done|]. simpl in Hcount.
      rewrite (counter_get_entry _ _ n) in Hcount by done.
      apply Nat.ltb_lt in Hcount. by rewrite Hcount.
    + rewrite counter_get_absent in Hcount by done. lia.
Qed.

Lemma detect_duplicates_nil (l : list Z) : detect_duplicates l = [] <-> NoDup l.
Proof.
  rewrite NoDup_ListNoDup, (NoDup_count_occ Z.eq_dec). split.
  - intros Hnil x. destruct (decide (1 < count_occ Z.eq_dec l x)) as [Hx|Hx]; [|lia].
    apply elem_of_detect_duplicates in Hx. rewrite Hnil in Hx. by apply elem_of_nil in Hx.
  - intros Hle. apply elem_of_nil_inv. intros x Hx%elem_of_detect_duplicates.
    specialize (Hle x). lia.
Qed.

End Counter.

(** ** The reports *)

Lemma validate_rule_id_range_run (rule_ids : list Z) :
  validate_rule_id_range rule_ids = (range_lines rule_ids, Return tt).
Proof.
  unfold validate_rule_id_range, range_lines.
  by destruct (filter _ rule_ids).
Qed.

Lemma flat_map_singleton {A B} (f : A -> B) (l : list A) :
  flat_map (fun x => [f x]) l = f <$> l.
Proof. induction l; simpl; by f_equal. Qed.

Lemma print_conflicts_run (conflicting_ids : gset Z) (idx : gmap Z (gset pystr)) :
  print_conflicts conflicting_ids idx = (conflict_lines idx conflicting_ids, Return tt).
Proof.
  unfold print_conflicts, conflict_lines. cbv zeta. rewrite bind_print.
  rewrite for_each_returns.
  - simpl. do 2 f_equal. apply flat_map_ext. intros rule_id.
    rewrite for_each_returns by done. simpl.
    by rewrite flat_map_singleton.
  - intros rule_id _. rewrite bind_print. by rewrite for_each_returns.
Qed.

(** Every conflicting identifier has its line in the report, followed by
    one line for each file owning it. *)
Lemma conflict_lines_reports (idx : gmap Z (gset pystr)) (conflicting_ids : gset Z)
    (rule_id : Z) :
  rule_id ∈ conflicting_ids ->
  exists before after files,
    conflict_lines idx conflicting_ids
    = before ++ PRuleIdFoundIn rule_id :: (PFoundInFile <$> files) ++ after
    /\ forall f, f ∈ files <-> f ∈ owners idx rule_id.
Proof.
  intros Hin. unfold conflict_lines.
  assert (Hsorted : rule_id ∈ sorted_ids (elements conflicting_ids)).
  { apply elem_of_sorted_ids. by apply elem_of_elements. }
  apply list_elem_of_split in Hsorted as (l1 & l2 & ->).
  eexists (PConflictsDetected :: flat_map _ l1), (flat_map _ l2), _.
  split.
  - by rewrite flat_map_app.
  - intros f. by rewrite elem_of_sorted_strs, elem_of_elements.
Qed.

(** A conflict report is the only place where the heading of a conflict
    is printed. *)
Lemma range_lines_no_conflict (rule_ids : list Z) :
  PConflictsDetected ∉ range_lines rule_ids.
Proof.
  unfold range_lines. destruct (filter _ rule_ids); [apply not_elem_of_nil|].
  intros H. repeat (apply elem_of_cons in H as [?|H]; [done|]).
  by apply elem_of_nil in H.
Qed.

Lemma extract_no_conflict {rt : Runtime} (content : pystr) :
  PConflictsDetected ∉ printed (extract_rule_ids_from_xml content).
Proof.
  destruct (extract_printed content) as [->|[[msg ->]|[e ->]]];
    [apply not_elem_of_nil| |]; intros H;
    repeat (apply elem_of_cons in H as [?|H]; [done|]); by apply elem_of_nil in H.
Qed.

(** ** One changed file *)

Section Reconciliation.
Context {rt : Runtime} {w : World}.

Lemma run_git_command_ok (args : list pystr) (stdout : pystr) :
  subprocess_run args = Returns stdout -> run_git_command args = ret stdout.
Proof. unfold run_git_command. by intros ->. Qed.

(** A failing git command ends the process inside [run_git_command]:
    its caller sees no exception. *)
Lemma run_git_command_failed (args : list pystr) (stderr : pystr) :
  subprocess_run args = Raises (CalledProcessError stderr) ->
  run_git_command args = ([PGitFailed args; PGitError stderr], SysExit 1).
Proof. unfold run_git_command. by intros ->. Qed.

Lemma run_git_command_never_CalledProcessError (args : list pystr) (stderr : pystr) :
  ended (run_git_command args) <> Raise (CalledProcessError stderr).
Proof.
  unfold run_git_command. by destruct (subprocess_run args) as [stdout|[]].
Qed.

Lemma get_rule_ids_from_main_version_ok (path : Path) (content : pystr) :
  subprocess_run (git_show_main (as_posix path)) = Returns content ->
  get_rule_ids_from_main_version path = extract_rule_ids_from_xml content.
Proof.
  intros Hshow. unfold get_rule_ids_from_main_version.
  rewrite (run_git_command_ok _ _ Hshow), bind_ret.
  apply try_except_not_raised. intros e. by rewrite extract_ended.
Qed.

Lemma get_rule_ids_from_main_version_failed (path : Path) (stderr : pystr) :
  subprocess_run (git_show_main (as_posix path)) = Raises (CalledProcessError stderr) ->
  get_rule_ids_from_main_version path
  = ([PGitFailed (git_show_main (as_posix path)); PGitError stderr], SysExit 1).
Proof.
  intros Hshow. unfold get_rule_ids_from_main_version.
  by rewrite (run_git_command_failed _ _ Hshow).
Qed.

(** The loop body, once the working copy has been read and its
    identifiers extracted. *)
Lemma check_file_read (idx : gmap Z (gset pystr)) (status : pystr) (path : Path)
    (content : pystr) (out : list line) (dev_ids : list Z) :
  read_text path = Returns content ->
  extract_rule_ids_from_xml content = (out, Return dev_ids) ->
  check_file idx (status, path)
  = (PCheckingFile (name path) :: out ++ printed (check_ids idx status path dev_ids),
     ended (check_ids idx status path dev_ids)).
Proof.
  intros Hread Hextract. unfold check_file.
  rewrite bind_print, Hread. simpl lift. rewrite bind_ret, Hextract.
  rewrite bind_return, app_nil_r. simpl try_except.
  by rewrite bind_return.
Qed.

Lemma check_ids_duplicates (idx : gmap Z (gset pystr)) (status : pystr) (path : Path)
    (dev_ids : list Z) :
  ~ NoDup dev_ids ->
  check_ids idx status path dev_ids
  = (range_lines dev_ids
       ++ [PDuplicates (name path) (sorted_ids (detect_duplicates dev_ids))],
     SysExit 1).
Proof.
  intros Hdup. rewrite <- detect_duplicates_nil in Hdup.
  destruct dev_ids as [|x dev_ids]; [by destruct Hdup|].
  unfold check_ids. rewrite validate_rule_id_range_run, bind_return.
  by destruct (detect_duplicates (x :: dev_ids)).
Qed.

Lemma check_ids_added (idx : gmap Z (gset pystr)) (path : Path) (dev_ids : list Z) :
  dev_ids <> [] -> NoDup dev_ids ->
  check_ids idx (str "A") path dev_ids
  = if bool_decide (set_of dev_ids ∩ dom idx = ∅)
    then (range_lines dev_ids ++ [PNoConflictsNew (name path)], Return tt)
    else (range_lines dev_ids ++ conflict_lines idx (set_of dev_ids ∩ dom idx),
          SysExit 1).
Proof.
  intros Hne Hnodup. apply detect_duplicates_nil in Hnodup.
  destruct dev_ids as [|x dev_ids]; [done|].
  unfold check_ids. rewrite validate_rule_id_range_run, bind_return, Hnodup.
  rewrite (bool_decide_eq_true_2 (str "A" = str "A")) by done. cbv zeta.
  rewrite bool_decide_not. case_bool_decide; [done|]. simpl negb.
  by rewrite print_conflicts_run, bind_return, app_nil_r.
Qed.

Lemma check_ids_modified (idx : gmap Z (gset pystr)) (path : Path) (dev_ids : list Z)
    (out_main : list line) (main_ids : list Z) :
  dev_ids <> [] -> NoDup dev_ids ->
  get_rule_ids_from_main_version path = (out_main, Return main_ids) ->
  check_ids idx (str "M") path dev_ids
  = if bool_decide (set_of dev_ids = set_of main_ids)
    then (range_lines dev_ids ++ out_main ++ [PUnchanged (name path)], Return tt)
    else if bool_decide ((set_of dev_ids ∖ set_of main_ids) ∩ dom idx = ∅)
    then (range_lines dev_ids ++ out_main ++ [PModifiedOk (name path)], Return tt)
    else (range_lines dev_ids ++ out_main
            ++ conflict_lines idx ((set_of dev_ids ∖ set_of main_ids) ∩ dom idx),
          SysExit 1).
Proof.
  intros Hne Hnodup Hmain. apply detect_duplicates_nil in Hnodup.
  destruct dev_ids as [|x dev_ids]; [done|].
  unfold check_ids. rewrite validate_rule_id_range_run, bind_return, Hnodup.
  rewrite (bool_decide_eq_false_2 (str "M" = str "A")) by (intros H; discriminate H).
  rewrite (bool_decide_eq_true_2 (str "M" = str "M")) by done.
  rewrite Hmain, bind_return. cbv zeta.
  case_bool_decide; [done|]. rewrite bool_decide_not.
  case_bool_decide; [done|]. simpl negb.
  by rewrite print_conflicts_run, bind_return, app_nil_r.
Qed.

Lemma check_ids_deleted (idx : gmap Z (gset pystr)) (path : Path) (dev_ids : list Z) :
  dev_ids <> [] -> NoDup dev_ids ->
  check_ids idx (str "D") path dev_ids
  = (range_lines dev_ids ++ [PDeleted (name path)], Return tt).
Proof.
  intros Hne Hnodup. apply detect_duplicates_nil in Hnodup.
  destruct dev_ids as [|x dev_ids]; [done|].
  unfold check_ids. rewrite validate_rule_id_range_run, bind_return, Hnodup.
  rewrite (bool_decide_eq_false_2 (str "D" = str "A")) by (intros H; discriminate H).
  rewrite (bool_decide_eq_false_2 (str "D" = str "M")) by (intros H; discriminate H).
  by rewrite (bool_decide_eq_true_2 (str "D" = str "D")) by done.
Qed.

End Reconciliation.

(** ** Properties of the reconciliation *)

Lemma in_range_spec (x : Z) : in_range x = true <-> 100000 <= x <= 120000.
Proof. unfold in_range. rewrite andb_true_iff, !Z.leb_le. done. Qed.

Lemma in_range_false (x : Z) : in_range x = false <-> ~ (100000 <= x <= 120000).
Proof. rewrite <- in_range_spec. by destruct (in_range x). Qed.

Lemma conflicting_nonempty (ids : gset Z) (idx : gmap Z (gset pystr)) :
  ids ∩ dom idx <> ∅ <-> exists x, x ∈ ids /\ is_Some (idx !! x).
Proof.
  split.
  - intros [x Hx]%set_choose_L. apply elem_of_intersection in Hx as [Hids Hdom].
    exists x. split; [done|]. by apply elem_of_dom.
  - intros (x & Hids & Hsome) Hempty.
    assert (Hx : x ∈ ids ∩ dom idx).
    { apply elem_of_intersection. split; [done|]. by apply elem_of_dom. }
    rewrite Hempty in Hx. by apply not_elem_of_empty in Hx.
Qed.

Lemma repeated_not_NoDup (l : list Z) :
  (exists x, (1 < count_occ Z.eq_dec l x)%nat) -> ~ NoDup l.
Proof.
  intros [x Hx]. rewrite NoDup_ListNoDup, (NoDup_count_occ Z.eq_dec).
  intros Hle. specialize (Hle x). lia.
Qed.

Lemma check_ids_prints_range {rt : Runtime} {w : World} (idx : gmap Z (gset pystr))
    (status : pystr) (path : Path) (dev_ids : list Z) :
  dev_ids <> [] ->
  exists rest, printed (check_ids idx status path dev_ids) = range_lines dev_ids ++ rest.
Proof.
  intros Hne. destruct dev_ids as [|x dev_ids]; [done|].
  unfold check_ids. rewrite validate_rule_id_range_run, bind_return.
  by eexists.
Qed.

(** C8: on a file with identifiers, every identifier outside
    [100000, 120000] is named in a warning, the two bounds themselves are
    not, and the advisory always returns: a file whose identifiers are
    free of duplicates and conflicts passes with or without the
    warning. *)
Theorem range_advisory_never_blocks {rt : Runtime} {w : World} (rule_ids : list Z) :
  validate_rule_id_range rule_ids = (range_lines rule_ids, Return tt)
  /\ (forall x, x ∈ rule_ids -> ~ (100000 <= x <= 120000) ->
        exists warned, range_lines rule_ids = [PRangeWarning warned; PRangeAdvice]
                       /\ x ∈ warned)
  /\ (forall warned x, PRangeWarning warned ∈ range_lines rule_ids ->
        x ∈ warned <-> x ∈ rule_ids /\ ~ (100000 <= x <= 120000))
  /\ range_lines [100000; 120000] = []
  /\ range_lines [99999; 120001] = [PRangeWarning [99999; 120001]; PRangeAdvice]
  /\ (forall idx status path, rule_ids <> [] ->
        exists rest, printed (check_ids idx status path rule_ids)
                     = range_lines rule_ids ++ rest)
  /\ (forall idx path, rule_ids <> [] -> NoDup rule_ids ->
        set_of rule_ids ∩ dom idx = ∅ ->
        check_ids idx (str "A") path rule_ids
        = (range_lines rule_ids ++ [PNoConflictsNew (name path)], Return tt))
  /\ (forall idx path, rule_ids <> [] -> NoDup rule_ids ->
        check_ids idx (str "D") path rule_ids
        = (range_lines rule_ids ++ [PDeleted (name path)], Return tt)).
Proof.
  split_and!.
  - apply validate_rule_id_range_run.
  - intros x Hx Hout. unfold range_lines.
    assert (Hin : x ∈ filter (fun rule_id => in_range rule_id = false) rule_ids).
    { apply list_elem_of_filter. split; [by apply in_range_false|done]. }
    destruct (filter _ rule_ids) as [|y invalid_ids] eqn:Hfilter;
      [by apply elem_of_nil in Hin|].
    eexists. split; [done|]. by apply elem_of_sorted_ids.
  - intros warned x. unfold range_lines.
    destruct (filter _ rule_ids) as [|y invalid_ids] eqn:Hfilter;
      [by intros ?%elem_of_nil|].
    intros [Heq|Hin]%elem_of_cons.
    + injection Heq as ->. rewrite elem_of_sorted_ids, <- Hfilter, list_elem_of_filter.
      rewrite in_range_false. tauto.
    + apply elem_of_cons in Hin as [?|Hin]; [done|]. by apply elem_of_nil in Hin.
  - reflexivity.
  - reflexivity.
  - intros idx status path. apply check_ids_prints_range.
  - intros idx path Hne Hnodup Hdisjoint.
    by rewrite check_ids_added, bool_decide_eq_true_2.
  - intros idx path. apply check_ids_deleted.
Qed.

Lemma range_advisory_never_blocks_witness :
  (exists warned, range_lines [99999; 100000; 120000; 120001]
                  = [PRangeWarning warned; PRangeAdvice] /\ 120001 ∈ warned)
  /\ @check_ids sample_runtime (world_of repo_added_conflict) sample_index
       (str "A") (mk_path (str "rules/n.xml")) [99999; 120001]
     = ([PRangeWarning [99999; 120001]; PRangeAdvice;
         PNoConflictsNew (str "n.xml")], Return tt).
Proof.
  split.
  - apply (proj1 (proj2 (@range_advisory_never_blocks sample_runtime
                           (world_of repo_added_conflict)
                           [99999; 100000; 120000; 120001])) 120001).
    + apply (bool_decide_unpack _). reflexivity.
    + lia.
  - apply (proj1 (proj2 (proj2 (proj2 (proj2 (proj2 (proj2
             (@range_advisory_never_blocks sample_runtime
                (world_of repo_added_conflict) [99999; 120001]))))))) sample_index
             (mk_path (str "rules/n.xml"))).
    + discriminate.
    + apply (bool_decide_unpack _). reflexivity.
    + apply (bool_decide_unpack _). reflexivity.
Defined.

(** C3: a changed file whose identifiers contain a repeated value stops
    the run with exit status 1 right after the range advisory, naming
    exactly the identifiers that repeat. No conflict report is printed,
    and the outcome is the same for every status, index and answer of the
    version-control tool. *)
Theorem duplicate_ids_stop_the_run {rt : Runtime} {w : World}
    (idx : gmap Z (gset pystr)) (status : pystr) (path : Path)
    (content : pystr) (out : list line) (dev_ids : list Z) :
  read_text path = Returns content ->
  extract_rule_ids_from_xml content = (out, Return dev_ids) ->
  (exists x, (1 < count_occ Z.eq_dec dev_ids x)%nat) ->
  let duplicates := sorted_ids (detect_duplicates dev_ids) in
  check_file idx (status, path)
  = (PCheckingFile (name path) :: out ++ range_lines dev_ids
       ++ [PDuplicates (name path) duplicates], SysExit 1)
  /\ (forall x, x ∈ duplicates <-> (1 < count_occ Z.eq_dec dev_ids x)%nat)
  /\ (PConflictsDetected ∉ printed (check_file idx (status, path)))
  /\ (forall (w' : World) idx' status',
        @read_text w' path = Returns content ->
        @check_file rt w' idx' (status', path) = @check_file rt w idx (status, path)).
Proof.
  intros Hread Hextract Hrepeated duplicates.
  apply repeated_not_NoDup in Hrepeated.
  assert (Hrun : forall (w' : World) idx' status',
             @read_text w' path = Returns content ->
             @check_file rt w' idx' (status', path)
             = (PCheckingFile (name path) :: out ++ range_lines dev_ids
                  ++ [PDuplicates (name path) duplicates], SysExit 1)).
  { intros w' idx' status' Hread'.
    rewrite (@check_file_read rt w' idx' status' path content out dev_ids) by done.
    by rewrite check_ids_duplicates. }
  split_and!.
  - by apply Hrun.
  - intros x. unfold duplicates.
    by rewrite elem_of_sorted_ids, elem_of_detect_duplicates.
  - rewrite (Hrun w idx status Hread). unfold printed. simpl.
    pose proof (extract_no_conflict content) as Hout. rewrite Hextract in Hout.
    pose proof (range_lines_no_conflict dev_ids) as Hrange.
    rewrite not_elem_of_cons, !not_elem_of_app, not_elem_of_cons.
    split_and!; [done|done|done|done|apply not_elem_of_nil].
  - intros w' idx' status' Hread'.
    by rewrite (Hrun w' idx' status' Hread'), (Hrun w idx status Hread).
Qed.

Lemma duplicate_ids_stop_the_run_witness :
  @check_file sample_runtime (world_of (repo_duplicate (str "D"))) sample_index
     (str "D", mk_path (str "rules/d.xml"))
  = ([PCheckingFile (str "d.xml"); PDuplicates (str "d.xml") [100050]], SysExit 1).
Proof.
  apply (proj1 (@duplicate_ids_stop_the_run sample_runtime
                  (world_of (repo_duplicate (str "D"))) sample_index (str "D")
                  (mk_path (str "rules/d.xml"))
                  (document_text [str "100050"; str "100050"]) []
                  [100050; 100050] eq_refl eq_refl
                  (ex_intro _ 100050 (Nat.lt_succ_diag_r 1)))).
Defined.

(** C1: for an added file whose identifiers are free of duplicates, the
    loop body leaves the process with status 1 exactly when one of the
    identifiers is a key of the reference index. The report then names
    every conflicting identifier, each followed by the files that own it
    in the reference revision; without a conflict the body returns and
    prints no conflict report. *)
Theorem added_file_conflict {rt : Runtime} {w : World}
    (idx : gmap Z (gset pystr)) (path : Path)
    (content : pystr) (out : list line) (dev_ids : list Z) :
  read_text path = Returns content ->
  extract_rule_ids_from_xml content = (out, Return dev_ids) ->
  dev_ids <> [] -> NoDup dev_ids ->
  let conflicting_ids := set_of dev_ids ∩ dom idx in
  let result := check_file idx (str "A", path) in
  (ended result = SysExit 1 <-> exists x, x ∈ dev_ids /\ is_Some (idx !! x))
  /\ ((exists x, x ∈ dev_ids /\ is_Some (idx !! x)) ->
        result = (PCheckingFile (name path) :: out ++ range_lines dev_ids
                    ++ conflict_lines idx conflicting_ids, SysExit 1)
        /\ forall rule_id, rule_id ∈ dev_ids -> is_Some (idx !! rule_id) ->
             exists before after files,
               printed result
               = before ++ PRuleIdFoundIn rule_id :: (PFoundInFile <$> files) ++ after
               /\ forall f, f ∈ files <-> f ∈ owners idx rule_id)
  /\ (~ (exists x, x ∈ dev_ids /\ is_Some (idx !! x)) ->
        result = (PCheckingFile (name path) :: out ++ range_lines dev_ids
                    ++ [PNoConflictsNew (name path)], Return tt)
        /\ PConflictsDetected ∉ printed result).
Proof.
  intros Hread Hextract Hne Hnodup conflicting_ids result.
  assert (Hin : forall x, x ∈ dev_ids <-> x ∈ set_of dev_ids).
  { intros x. unfold set_of. by rewrite elem_of_list_to_set. }
  assert (Hiff : conflicting_ids <> ∅ <-> exists x, x ∈ dev_ids /\ is_Some (idx !! x)).
  { unfold conflicting_ids. rewrite conflicting_nonempty.
    split; intros (x & Hx & Hsome); exists x; by rewrite ?Hin in *. }
  assert (Hresult : result
            = (PCheckingFile (name path) :: out ++ printed (check_ids idx (str "A") path dev_ids),
               ended (check_ids idx (str "A") path dev_ids))).
  { by apply check_file_read with content. }
  rewrite check_ids_added in Hresult by done. fold conflicting_ids in Hresult.
  rewrite <- Hiff. clear Hiff.
  case_bool_decide as Hempty; rewrite Hresult; unfold printed, ended; simpl.
  - split_and!; [split; [done|by intros []]|done|]. intros _. split; [done|].
    pose proof (extract_no_conflict content) as Hout. rewrite Hextract in Hout.
    pose proof (range_lines_no_conflict dev_ids) as Hrange.
    rewrite not_elem_of_cons, !not_elem_of_app, not_elem_of_cons.
    split_and!; [done|done|done|done|apply not_elem_of_nil].
  - split_and!; [done| |done]. intros _. split; [done|].
    intros rule_id Hdev Hsome.
    destruct (conflict_lines_reports idx conflicting_ids rule_id)
      as (before & after & files & Hlines & Hfiles).
    { unfold conflicting_ids. apply elem_of_intersection.
      split; [by apply Hin|by apply elem_of_dom]. }
    exists (PCheckingFile (name path) :: out ++ range_lines dev_ids ++ before), after, files.
    split; [|done]. rewrite Hlines. simpl. by rewrite <- !app_assoc.
Qed.

Lemma added_file_conflict_witness :
  @check_file sample_runtime (world_of repo_added_conflict) duplicate_index
     (str "A", mk_path (str "rules/b.xml"))
  = ([PCheckingFile (str "b.xml"); PNoConflictsNew (str "b.xml")], Return tt)
  /\ @check_file sample_runtime (world_of repo_added_conflict) sample_index
       (str "A", mk_path (str "rules/b.xml"))
     = ([PCheckingFile (str "b.xml"); PConflictsDetected; PRuleIdFoundIn 100010;
         PFoundInFile (str "rules/a.xml")], SysExit 1).
Proof.
  split.
  { refine (proj1 (proj2 (proj2 (@added_file_conflict sample_runtime
                      (world_of repo_added_conflict) duplicate_index
                      (mk_path (str "rules/b.xml"))
                      (document_text [str "100010"]) [] [100010]
                      eq_refl eq_refl _ _)) _)).
    - discriminate.
    - apply NoDup_singleton.
    - intros (x & ->%list_elem_of_singleton & [files Hfiles]). discriminate Hfiles. }
  refine (proj1 (proj1 (proj2 (@added_file_conflict sample_runtime
                    (world_of repo_added_conflict) sample_index
                    (mk_path (str "rules/b.xml"))
                    (document_text [str "100010"]) [] [100010]
                    eq_refl eq_refl _ _)) _)).
  - discriminate.
  - apply NoDup_singleton.
  - exists 100010. split; [apply list_elem_of_here|by eexists].
Defined.

(** C2: for a modified file whose identifiers are free of duplicates and
    whose reference-revision content can be fetched: when the set of
    working identifiers equals the set of reference identifiers the body
    returns without any conflict check; otherwise it leaves the process
    with status 1 exactly when an identifier that is new to the file is a
    key of the reference index, with the same report as for an added
    file. *)
Theorem modified_file_conflict {rt : Runtime} {w : World}
    (idx : gmap Z (gset pystr)) (path : Path)
    (content : pystr) (out : list line) (dev_ids : list Z)
    (main_content : pystr) (out_main : list line) (main_ids : list Z) :
  read_text path = Returns content ->
  extract_rule_ids_from_xml content = (out, Return dev_ids) ->
  dev_ids <> [] -> NoDup dev_ids ->
  subprocess_run (git_show_main (as_posix path)) = Returns main_content ->
  extract_rule_ids_from_xml main_content = (out_main, Return main_ids) ->
  let new_or_changed_ids := set_of dev_ids ∖ set_of main_ids in
  let conflicting_ids := new_or_changed_ids ∩ dom idx in
  let newly_claimed := exists x, x ∈ dev_ids /\ (x ∉ main_ids) /\ is_Some (idx !! x) in
  let result := check_file idx (str "M", path) in
  let before_check := PCheckingFile (name path) :: out ++ range_lines dev_ids ++ out_main in
  (set_of dev_ids = set_of main_ids ->
     result = (before_check ++ [PUnchanged (name path)], Return tt)
     /\ PConflictsDetected ∉ printed result)
  /\ (set_of dev_ids <> set_of main_ids ->
        (ended result = SysExit 1 <-> newly_claimed)
        /\ (newly_claimed ->
              result = (before_check ++ conflict_lines idx conflicting_ids, SysExit 1)
              /\ forall rule_id, rule_id ∈ dev_ids -> rule_id ∉ main_ids ->
                   is_Some (idx !! rule_id) ->
                   exists before after files,
                     printed result
                     = before ++ PRuleIdFoundIn rule_id :: (PFoundInFile <$> files) ++ after
                     /\ forall f, f ∈ files <-> f ∈ owners idx rule_id)
        /\ (~ newly_claimed ->
              result = (before_check ++ [PModifiedOk (name path)], Return tt)
              /\ PConflictsDetected ∉ printed result)).
Proof.
  intros Hread Hextract Hne Hnodup Hshow Hmain
    new_or_changed_ids conflicting_ids newly_claimed result before_check.
  assert (Hin : forall x, x ∈ new_or_changed_ids <-> x ∈ dev_ids /\ x ∉ main_ids).
  { intros x. unfold new_or_changed_ids, set_of.
    by rewrite elem_of_difference, !elem_of_list_to_set. }
  assert (Hiff : conflicting_ids <> ∅ <-> newly_claimed).
  { unfold conflicting_ids, newly_claimed. rewrite conflicting_nonempty.
    split.
    - intros (x & [Hdev Hmain']%Hin & Hsome). by exists x.
    - intros (x & Hdev & Hmain' & Hsome). exists x. split; [by apply Hin|done]. }
  assert (Hresult : result
            = (PCheckingFile (name path) :: out ++ printed (check_ids idx (str "M") path dev_ids),
               ended (check_ids idx (str "M") path dev_ids))).
  { by apply check_file_read with content. }
  rewrite (check_ids_modified idx path dev_ids out_main main_ids) in Hresult;
    [|done|done|by rewrite (get_rule_ids_from_main_version_ok _ _ Hshow)].
  fold new_or_changed_ids in Hresult. fold conflicting_ids in Hresult.
  pose proof (extract_no_conflict content) as Hout. rewrite Hextract in Hout.
  pose proof (extract_no_conflict main_content) as Hout_main. rewrite Hmain in Hout_main.
  pose proof (range_lines_no_conflict dev_ids) as Hrange.
  unfold printed in Hout, Hout_main. simpl in Hout, Hout_main.
  rewrite <- Hiff. clear Hiff.
  case_bool_decide as Hsame.
  { split; [|done]. intros _. rewrite Hresult. unfold before_check, printed. simpl.
    split; [by rewrite <- !app_assoc|].
    rewrite not_elem_of_cons, !not_elem_of_app, not_elem_of_cons.
    split_and!; [done|done|done|done|done|apply not_elem_of_nil]. }
  split; [done|]. intros _.
  case_bool_decide as Hempty; rewrite Hresult; unfold before_check, printed, ended; simpl.
  - split_and!; [split; [done|by intros []]|done|]. intros _.
    split; [by rewrite <- !app_assoc|].
    rewrite not_elem_of_cons, !not_elem_of_app, not_elem_of_cons.
    split_and!; [done|done|done|done|done|apply not_elem_of_nil].
  - split_and!; [done| |done]. intros _. split; [by rewrite <- !app_assoc|].
    intros rule_id Hdev Hnotmain Hsome.
    destruct (conflict_lines_reports idx conflicting_ids rule_id)
      as (before & after & files & Hlines & Hfiles).
    { unfold conflicting_ids. apply elem_of_intersection.
      split; [by apply Hin|by apply elem_of_dom]. }
    exists (PCheckingFile (name path) :: out ++ range_lines dev_ids ++ out_main ++ before),
      after, files.
    split; [|done]. rewrite Hlines. simpl. by rewrite <- !app_assoc.
Qed.

Lemma modified_file_conflict_witness :
  @check_file sample_runtime (world_of (repo_modified [str "100020"])) sample_index
     (str "M", mk_path (str "rules/c.xml"))
  = ([PCheckingFile (str "c.xml"); PUnchanged (str "c.xml")], Return tt)
  /\ @check_file sample_runtime (world_of (repo_modified [str "100020"; str "100010"]))
       sample_index (str "M", mk_path (str "rules/c.xml"))
     = ([PCheckingFile (str "c.xml"); PConflictsDetected; PRuleIdFoundIn 100010;
         PFoundInFile (str "rules/a.xml")], SysExit 1).
Proof.
  split.
  { refine (proj1 (proj1 (@modified_file_conflict sample_runtime
                      (world_of (repo_modified [str "100020"])) sample_index
                      (mk_path (str "rules/c.xml"))
                      (document_text [str "100020"]) [] [100020]
                      (document_text [str "100020"]) [] [100020]
                      eq_refl eq_refl _ _ eq_refl eq_refl) eq_refl)).
    - discriminate.
    - apply NoDup_singleton. }
  refine (proj1 (proj1 (proj2 (proj2 (@modified_file_conflict sample_runtime
                    (world_of (repo_modified [str "100020"; str "100010"])) sample_index
                    (mk_path (str "rules/c.xml"))
                    (document_text [str "100020"; str "100010"]) [] [100020; 100010]
                    (document_text [str "100020"]) [] [100020]
                    eq_refl eq_refl _ _ eq_refl eq_refl) _)) _)).
  - discriminate.
  - apply (bool_decide_unpack _). reflexivity.
  - apply (bool_decide_unpack _). reflexivity.
  - exists 100010. split_and!.
    + apply (bool_decide_unpack _). reflexivity.
    + apply (bool_decide_unpack _). reflexivity.
    + by eexists.
Defined.

(** ** The reference index *)

Section Index.
Context {rt : Runtime} {w : World}.

(** Adding a file under the identifiers it declares: the file joins the
    owners of each declared identifier, once, however often the
    identifier is declared. *)
Lemma owners_add_file (file : pystr) (m : gmap Z (gset pystr)) (x rule_id : Z) :
  owners (add_file file m x) rule_id
  = if bool_decide (rule_id = x) then owners m rule_id ∪ {[file]} else owners m rule_id.
Proof.
  unfold owners, add_file. case_bool_decide as Heq.
  - subst x. by rewrite lookup_insert_eq.
  - by rewrite lookup_insert_ne.
Qed.

Lemma owners_add_files (file : pystr) (rule_ids : list Z) (m : gmap Z (gset pystr))
    (rule_id : Z) :
  owners (foldl (add_file file) m rule_ids) rule_id
  = if bool_decide (rule_id ∈ rule_ids) then owners m rule_id ∪ {[file]}
    else owners m rule_id.
Proof.
  revert m. induction rule_ids as [|x rule_ids IH]; intros m; cbn [foldl].
  - rewrite bool_decide_eq_false_2; [done|apply not_elem_of_nil].
  - rewrite IH, owners_add_file.
    destruct (decide (rule_id = x)) as [->|Hne].
    + rewrite (bool_decide_eq_true_2 (x = x)) by done.
      rewrite (bool_decide_eq_true_2 (x ∈ x :: rule_ids)) by left.
      case_bool_decide; [|done]. apply set_eq. intros f.
      rewrite !elem_of_union. tauto.
    + rewrite (bool_decide_eq_false_2 (rule_id = x)) by done.
      rewrite (bool_decide_ext (rule_id ∈ x :: rule_ids) (rule_id ∈ rule_ids)); [done|].
      rewrite elem_of_cons. tauto.
Qed.

(** One round of the loop over the reference files, for a file whose
    content is fetched. *)
Lemma index_files_step (file : pystr) (xml_files : list pystr)
    (m : gmap Z (gset pystr)) (content : pystr) :
  subprocess_run (git_show_main file) = Returns content ->
  index_files (file :: xml_files) m
  = bind (extract_rule_ids_from_xml content)
      (fun rule_ids => index_files xml_files (foldl (add_file file) m rule_ids)).
Proof.
  intros Hshow. simpl. rewrite (run_git_command_ok _ _ Hshow), bind_ret.
  rewrite (run_eta (extract_rule_ids_from_xml content)), extract_ended.
  rewrite bind_return, app_nil_r. simpl try_except. by rewrite !bind_return.
Qed.

(** A round whose fetch fails ends the process: the handler of the loop
    never sees the failure. *)
Lemma index_files_fetch_failed (file : pystr) (xml_files : list pystr)
    (m : gmap Z (gset pystr)) (stderr : pystr) :
  subprocess_run (git_show_main file) = Raises (CalledProcessError stderr) ->
  index_files (file :: xml_files) m
  = ([PGitFailed (git_show_main file); PGitError stderr], SysExit 1).
Proof. intros Hshow. simpl. by rewrite (run_git_command_failed _ _ Hshow). Qed.

Lemma index_files_returned (xml_files : list pystr) (m idx : gmap Z (gset pystr))
    (out : list line) :
  index_files xml_files m = (out, Return idx) ->
  forall rule_id f,
    f ∈ owners idx rule_id <->
    f ∈ owners m rule_id
    \/ (f ∈ xml_files /\ exists content,
          subprocess_run (git_show_main f) = Returns content
          /\ rule_id ∈ (extract_try content).1).
Proof.
  revert m out. induction xml_files as [|file xml_files IH]; intros m out Hrun rule_id f.
  - injection Hrun as _ <-. split; [by left|].
    intros [?|[[]%elem_of_nil _]]; done.
  - destruct (subprocess_run (git_show_main file)) as [content|e] eqn:Hshow.
    + rewrite (index_files_step _ _ _ _ Hshow) in Hrun.
      rewrite (run_eta (extract_rule_ids_from_xml content)), extract_ended in Hrun.
      rewrite bind_return in Hrun.
      rewrite (run_eta (index_files _ _)) in Hrun. injection Hrun as _ Hended.
      rewrite (IH _ (printed (index_files xml_files
                 (foldl (add_file file) m (extract_try content).1)))) by
        (rewrite <- Hended; apply run_eta).
      rewrite owners_add_files, elem_of_cons.
      case_bool_decide as Hdeclared.
      * rewrite elem_of_union, elem_of_singleton. naive_solver.
      * split; [naive_solver|].
        intros [?|([-> | ?] & content' & Hshow' & Hdecl)]; [by left| |naive_solver].
        rewrite Hshow in Hshow'. by injection Hshow' as <-.
    + exfalso. simpl in Hrun. unfold run_git_command in Hrun. rewrite Hshow in Hrun.
      by destruct e.
Qed.

End Index.

Lemma bind_return_inv {A B} (m : run A) (k : A -> run B) (out : list line) (b : B) :
  bind m k = (out, Return b) ->
  exists out1 a out2, m = (out1, Return a) /\ k a = (out2, Return b) /\ out = out1 ++ out2.
Proof.
  destruct m as [out1 [a|e|c]]; simpl; [|done|done].
  destruct (k a) as [out2 r] eqn:Hk. intros [= <- ->].
  by exists out1, a, out2.
Qed.

Lemma filter_eq_NoDup {A} `{EqDecision A} (l : list A) (x : A) :
  NoDup l -> (length (filter (fun y => y = x) l) <= 1)%nat.
Proof.
  induction 1 as [|y l Hy Hl IH]; [simpl; lia|].
  rewrite filter_cons. case_decide as Heq; [|done]. subst y. simpl.
  assert (Hnone : filter (fun y => y = x) l = []).
  { apply elem_of_nil_inv. intros z [-> Hz]%list_elem_of_filter. done. }
  rewrite Hnone. simpl. lia.
Qed.

(** What [get_rule_ids_per_file_in_main] returns, when it returns, is
    what the loop over the rule files of the tree listing returns. *)
Lemma get_rule_ids_per_file_in_main_returned {rt : Runtime} {w : World}
    (out : list line) (idx : gmap Z (gset pystr)) :
  get_rule_ids_per_file_in_main = (out, Return idx) ->
  exists files_output out',
    subprocess_run [str "git"; str "ls-tree"; str "-r"; str "origin/main"; str "--name-only"]
    = Returns files_output
    /\ index_files (filter (fun f => is_rule_file f = true) (splitlines files_output)) ∅
       = (out', Return idx).
Proof.
  unfold get_rule_ids_per_file_in_main.
  match goal with |- try_except ?m _ = _ -> _ => destruct m as [out0 [a|e|c]] eqn:Hbody end;
    simpl; [|done|done].
  intros [= -> ->].
  apply bind_return_inv in Hbody as (out1 & _ & out2 & _ & Hbody & _).
  apply bind_return_inv in Hbody as (out3 & files_output & out' & Hls & Hloop & _).
  exists files_output, out'. split; [|done].
  unfold run_git_command in Hls.
  destruct (subprocess_run _) as [stdout|[]]; simpl in Hls; try done.
  by injection Hls as _ ->.
Qed.

(** C9: in the index the builder returns, the file set of every
    identifier holds a file at most once, and only files whose
    reference-revision content declares the identifier; adding a file
    under the identifiers of its content, however often each is repeated
    there, enlarges a file set by at most that one entry. *)
Theorem index_one_entry_per_file {rt : Runtime} {w : World}
    (out : list line) (idx : gmap Z (gset pystr)) :
  get_rule_ids_per_file_in_main = (out, Return idx) ->
  (forall rule_id file,
     (length (filter (fun f => f = file) (elements (owners idx rule_id))) <= 1)%nat
     /\ (file ∈ owners idx rule_id ->
           exists content, subprocess_run (git_show_main file) = Returns content
                           /\ rule_id ∈ (extract_try content).1))
  /\ (forall file (m : gmap Z (gset pystr)) rule_ids rule_id,
        owners (foldl (add_file file) m rule_ids) rule_id
        = (if bool_decide (rule_id ∈ rule_ids) then owners m rule_id ∪ {[file]}
           else owners m rule_id)
        /\ (size (owners (foldl (add_file file) m rule_ids) rule_id)
            <= S (size (owners m rule_id)))%nat
        /\ (length (filter (fun f => f = file)
                      (elements (owners (foldl (add_file file) m rule_ids) rule_id)))
            <= 1)%nat).
Proof.
  intros Hrun. split.
  - intros rule_id file. split; [apply filter_eq_NoDup, NoDup_elements|].
    apply get_rule_ids_per_file_in_main_returned in Hrun
      as (files_output & out' & _ & Hloop).
    rewrite (index_files_returned _ _ _ _ Hloop rule_id file).
    intros [Hempty|(_ & Hcontent)]; [|done].
    unfold owners in Hempty. rewrite lookup_empty in Hempty.
    by apply not_elem_of_empty in Hempty.
  - intros file m rule_ids rule_id. split_and!.
    + apply owners_add_files.
    + rewrite owners_add_files. case_bool_decide; [|lia].
      rewrite (size_union_alt (owners m rule_id) {[file]}).
      assert (Hle : (size ({[file]} ∖ owners m rule_id : gset pystr) <= 1)%nat).
      { etrans; [apply (subseteq_size _ {[file]})|by rewrite size_singleton].
        apply subseteq_difference_l. done. }
      lia.
    + apply filter_eq_NoDup, NoDup_elements.
Qed.

Lemma index_one_entry_per_file_witness :
  owners (foldl (add_file (str "rules/d.xml")) ∅ [100050; 100050]) 100050
  = ∅ ∪ {[ str "rules/d.xml" ]}
  /\ forall rule_id file,
       (length (filter (fun f => f = file)
                  (elements (owners duplicate_index rule_id))) <= 1)%nat.
Proof.
  pose proof (@index_one_entry_per_file sample_runtime
                (world_of (repo_duplicate (str "M"))) []
                duplicate_index eq_refl) as [Hidx Hstep].
  split.
  - exact (proj1 (Hstep (str "rules/d.xml") ∅ [100050; 100050] 100050)).
  - intros rule_id file. apply (proj1 (Hidx rule_id file)).
Defined.

(** ** Failures of the version-control tool *)

(** X20: the handler of [get_rule_ids_from_main_version] is never
    entered: the function behaves as its [try] block alone, so it returns
    an empty list only when the extractor does. *)
Lemma get_rule_ids_from_main_version_handler_unreachable {rt : Runtime} {w : World}
    (path : Path) :
  get_rule_ids_from_main_version path
  = (content <- run_git_command (git_show_main (as_posix path)) ;;
     extract_rule_ids_from_xml content).
Proof.
  destruct (subprocess_run (git_show_main (as_posix path))) as [content|e] eqn:Hshow.
  - rewrite (get_rule_ids_from_main_version_ok _ _ Hshow), (run_git_command_ok _ _ Hshow).
    by rewrite bind_ret.
  - unfold get_rule_ids_from_main_version, run_git_command. rewrite Hshow.
    by destruct e.
Qed.

(** C4: [rules/e.xml] is modified in the change-set and absent from the
    reference revision. Fetching its reference content fails, and the
    failure ends the process with status 1 inside [run_git_command]:
    no empty list is returned and the run does not continue. *)
Theorem modified_file_absent_from_main_exits :
  @subprocess_run (world_of repo_modified_absent)
     (git_show_main (as_posix (mk_path (str "rules/e.xml"))))
  = Raises (CalledProcessError no_such_path)
  /\ @get_rule_ids_from_main_version sample_runtime (world_of repo_modified_absent)
       (mk_path (str "rules/e.xml"))
     = ([PGitFailed (git_show_main (str "rules/e.xml")); PGitError no_such_path],
        SysExit 1)
  /\ @main sample_runtime (world_of repo_modified_absent)
     = ([PStart; PCheckingFiles [str "e.xml"]; PCheckingFile (str "e.xml");
         PGitFailed (git_show_main (str "rules/e.xml")); PGitError no_such_path],
        SysExit 1)
  /\ exit_status (@main sample_runtime (world_of repo_modified_absent)) = 1.
Proof. repeat split; reflexivity. Qed.

(** C5: the tree of the reference revision lists [rules/u.xml] and
    [rules/a.xml], and the content of [rules/u.xml] cannot be fetched.
    Index construction ends the process with status 1 at that file: no
    warning is printed for it, [rules/a.xml] is not indexed, and no
    changed file is checked. *)
Theorem unfetchable_reference_file_aborts :
  @subprocess_run (world_of repo_unfetchable) (git_show_main (str "rules/u.xml"))
  = Raises (CalledProcessError no_such_path)
  /\ @get_rule_ids_per_file_in_main sample_runtime (world_of repo_unfetchable)
     = ([PGitFailed (git_show_main (str "rules/u.xml")); PGitError no_such_path],
        SysExit 1)
  /\ @main sample_runtime (world_of repo_unfetchable)
     = ([PStart; PGitFailed (git_show_main (str "rules/u.xml"));
         PGitError no_such_path], SysExit 1)
  /\ exit_status (@main sample_runtime (world_of repo_unfetchable)) = 1.
Proof. repeat split; reflexivity. Qed.

(** C6: the content holds a [rule] element with id SUPERSCRIPT TWO
    followed by one with id 100001. The second id is non-empty and all
    decimal digits, and converts to 100001, yet the extractor returns the
    empty list: the first id passes [str.isdigit], its conversion raises,
    and the handler of the enclosing [try] ends the loop. *)
Theorem digit_id_after_superscript_dropped :
  let content := document_text [SUPERSCRIPT_TWO; str "100001"] in
  @fromstring sample_runtime (wrap content)
  = Returns (mkElement (str "root") ∅
               [rule_element SUPERSCRIPT_TWO; rule_element (str "100001")])
  /\ @isdigit sample_runtime SUPERSCRIPT_TWO = true
  /\ @int sample_runtime SUPERSCRIPT_TWO = Raises (ValueError SUPERSCRIPT_TWO)
  /\ @accepted_id sample_runtime (rule_element (str "100001")) = Some 100001
  /\ @extract_rule_ids_from_xml sample_runtime content
     = ([PXmlUnexpected (ValueError SUPERSCRIPT_TWO)], Return []).
Proof. repeat split; reflexivity. Qed.

(** ** The whole run *)

Section WholeRun.
Context {rt : Runtime} {w : World}.

(** Without changed rule files the index is not built. *)
Lemma main_no_changes (out_changed : list line) :
  get_changed_rule_files = (out_changed, Return []) ->
  main = (PStart :: out_changed ++ [PNoRuleFilesChanged], Return tt).
Proof. intros Hchanged. unfold main. by rewrite bind_print, Hchanged, bind_return. Qed.

Lemma main_checks (changed_files : list (pystr * Path)) (idx : gmap Z (gset pystr))
    (out_changed out_index : list line) :
  get_changed_rule_files = (out_changed, Return changed_files) ->
  changed_files <> [] ->
  get_rule_ids_per_file_in_main = (out_index, Return idx) ->
  main
  = (PStart :: out_changed ++ out_index
       ++ PCheckingFiles (name ∘ snd <$> changed_files)
       :: printed (for_each changed_files (check_file idx) ;; print PAllPassed),
     ended (for_each changed_files (check_file idx) ;; print PAllPassed)).
Proof.
  intros Hchanged Hne Hindex. unfold main.
  rewrite bind_print, Hchanged, bind_return.
  destruct changed_files as [|changed changed_files]; [done|].
  rewrite Hindex, bind_return, bind_print. by cbn [printed ended fst snd].
Qed.

(** X5: the run fails fast: it ends with the status of the first changed
    file whose check leaves the process, and the files after it are not
    checked. *)
Lemma main_fails_at (before after : list (pystr * Path)) (changed : pystr * Path)
    (idx : gmap Z (gset pystr)) (out_changed out_index : list line) (code : Z) :
  get_changed_rule_files = (out_changed, Return (before ++ changed :: after)) ->
  get_rule_ids_per_file_in_main = (out_index, Return idx) ->
  (forall c, c ∈ before -> ended (check_file idx c) = Return tt) ->
  ended (check_file idx changed) = SysExit code ->
  main
  = (PStart :: out_changed ++ out_index
       ++ PCheckingFiles (name ∘ snd <$> before ++ changed :: after)
       :: flat_map (fun c => printed (check_file idx c)) before
       ++ printed (check_file idx changed),
     SysExit code)
  /\ exit_status main = code.
Proof.
  intros Hchanged Hindex Hbefore Hexit.
  assert (Hne : before ++ changed :: after <> []) by by destruct before.
  assert (Hmain := main_checks _ _ _ _ Hchanged Hne Hindex).
  rewrite (for_each_fail_fast before after changed _ code Hbefore Hexit) in Hmain.
  rewrite bind_exit in Hmain. unfold exit_status. by rewrite Hmain.
Qed.

(** X6: the run succeeds, ending with the closing line and status 0,
    when the check of every changed file returns. *)
Lemma main_passes (changed_files : list (pystr * Path)) (idx : gmap Z (gset pystr))
    (out_changed out_index : list line) :
  get_changed_rule_files = (out_changed, Return changed_files) ->
  changed_files <> [] ->
  get_rule_ids_per_file_in_main = (out_index, Return idx) ->
  (forall c, c ∈ changed_files -> ended (check_file idx c) = Return tt) ->
  main
  = (PStart :: out_changed ++ out_index
       ++ PCheckingFiles (name ∘ snd <$> changed_files)
       :: flat_map (fun c => printed (check_file idx c)) changed_files
       ++ [PAllPassed],
     Return tt)
  /\ exit_status main = 0.
Proof.
  intros Hchanged Hne Hindex Hall.
  assert (Hmain := main_checks _ _ _ _ Hchanged Hne Hindex).
  rewrite (for_each_returns _ _ Hall), bind_return in Hmain.
  unfold exit_status. by rewrite Hmain.
Qed.

End WholeRun.

(** The scenario of the specification, run from [main]. *)
Example main_added_conflict :
  @main sample_runtime (world_of repo_added_conflict)
  = ([PStart; PCheckingFiles [str "b.xml"]; PCheckingFile (str "b.xml");
      PConflictsDetected; PRuleIdFoundIn 100010; PFoundInFile (str "rules/a.xml")],
     SysExit 1).
Proof. reflexivity. Qed.

(** A modified file that keeps 100020 and gains the free 100021 passes;
    one that gains 100010, owned by [rules/a.xml], fails. *)
Example main_modified_free :
  @main sample_runtime (world_of (repo_modified [str "100020"; str "100021"]))
  = ([PStart; PCheckingFiles [str "c.xml"]; PCheckingFile (str "c.xml");
      PModifiedOk (str "c.xml"); PAllPassed], Return tt).
Proof. reflexivity. Qed.

Example main_modified_owned :
  exit_status (@main sample_runtime (world_of (repo_modified [str "100020"; str "100010"]))) = 1.
Proof. reflexivity. Qed.

Example extract_skips_non_digit_ids :
  @extract_rule_ids_from_xml sample_runtime
     (document_text [str "100030"; str "abc"; str "12a"])
  = ([], Return [100030]).
Proof. reflexivity. Qed.

Example changed_file_of_line_modified :
  changed_file_of_line (str "M" ++ TAB ++ str "rules/sub/c.xml")
  = Some (str "M", mkPath [str "rules"; str "sub"; str "c.xml"]).
Proof. reflexivity. Qed.

Example changed_file_of_line_other_directory :
  changed_file_of_line (str "M" ++ TAB ++ str "docs/c.xml") = None.
Proof. reflexivity. Qed.

(** ** Exit statuses *)

Section FailsLoudly.
Context {A B : Type}.

Lemma fails_loudly_returned (out : list line) (a : A) : fails_loudly (out, Return a).
Proof. by intros code. Qed.

Lemma fails_loudly_raised (out : list line) (e : exn) : fails_loudly (A := A) (out, Raise e).
Proof. by intros code. Qed.

Lemma fails_loudly_bind (m : run A) (k : A -> run B) :
  fails_loudly m -> (forall a, fails_loudly (k a)) -> fails_loudly (bind m k).
Proof.
  intros Hm Hk code. destruct m as [out [a|e|c]]; [|done|].
  - rewrite bind_return. unfold printed, ended. simpl. intros Hexit.
    destruct (Hk a code Hexit) as [-> Hprinted]. split; [done|].
    intros [_ Hnil]%app_eq_nil. by apply Hprinted.
  - rewrite bind_exit. unfold printed, ended. simpl. intros [= <-].
    by destruct (Hm c eq_refl).
Qed.

Lemma fails_loudly_try_except (m : run A) (h : exn -> option (run A)) :
  fails_loudly m ->
  (forall e k, h e = Some k -> fails_loudly k) ->
  fails_loudly (try_except m h).
Proof.
  intros Hm Hh code. destruct m as [out [a|e|c]]; [done| |exact (Hm code)].
  simpl. destruct (h e) as [[out' r]|] eqn:Hhandler; [|done].
  unfold printed, ended. simpl. intros Hexit.
  destruct (Hh e _ Hhandler code Hexit) as [-> Hprinted]. split; [done|].
  intros [_ Hnil]%app_eq_nil. by apply Hprinted.
Qed.

End FailsLoudly.


Lemma fails_loudly_print_exit {A} (l : line) :
  fails_loudly (A := A) (print l ;; sys_exit 1).
Proof. intros code. rewrite bind_print. unfold printed, ended. simpl. by intros [= <-]. Qed.

Section ScriptFailsLoudly.
Context {rt : Runtime} {w : World}.

Lemma fails_loudly_run_git_command (args : list pystr) :
  fails_loudly (run_git_command args).
Proof.
  unfold run_git_command. destruct (subprocess_run args) as [stdout|[]]; try done.
  simpl. intros code. unfold printed, ended. simpl. by intros [= <-].
Qed.

Lemma fails_loudly_extract (content : pystr) :
  fails_loudly (extract_rule_ids_from_xml content).
Proof. intros code. by rewrite extract_ended. Qed.


Lemma fails_loudly_index_files (xml_files : list pystr) (m : gmap Z (gset pystr)) :
  fails_loudly (index_files xml_files m).
Proof.
  revert m. induction xml_files as [|file xml_files IH]; intros m; [done|].
  simpl. apply fails_loudly_bind; [|done].
  apply fails_loudly_try_except.
  - apply fails_loudly_bind; [apply fails_loudly_run_git_command|]. intros content.
    apply fails_loudly_bind; [apply fails_loudly_extract|done].
  - intros [] k [= <-] code. by cbn.
Qed.

Lemma fails_loudly_get_rule_ids_per_file_in_main :
  fails_loudly get_rule_ids_per_file_in_main.
Proof.
  apply fails_loudly_try_except.
  - apply fails_loudly_bind; [apply fails_loudly_run_git_command|]. intros _.
    apply fails_loudly_bind; [apply fails_loudly_run_git_command|]. intros files_output.
    apply fails_loudly_index_files.
  - intros e k [= <-]. apply fails_loudly_print_exit.
Qed.






End ScriptFailsLoudly.


(** X2: neither enumeration helper lets an exception escape.
    [get_changed_rule_files] returns without printing or ends the process
    with status 1 after a diagnostic; [get_rule_ids_per_file_in_main]
    returns the index or ends the process with status 1 after a
    diagnostic. *)
Theorem enumeration_returns_or_exits {rt : Runtime} {w : World} :
  ((exists changed_files, get_changed_rule_files = ([], Return changed_files))
   \/ (exists l out, get_changed_rule_files = (l :: out, SysExit 1)))
  /\ ((exists out idx, get_rule_ids_per_file_in_main = (out, Return idx))
      \/ (exists l out, get_rule_ids_per_file_in_main = (l :: out, SysExit 1))).
Proof.
  split.
  - unfold get_changed_rule_files, run_git_command.
    destruct (subprocess_run _) as [output|[]]; simpl; eauto.
  - pose proof fails_loudly_get_rule_ids_per_file_in_main as Hloud.
    destruct get_rule_ids_per_file_in_main as [out [idx|e|code]] eqn:Hrun.
    + left. eauto.
    + exfalso. unfold get_rule_ids_per_file_in_main in Hrun.
      match type of Hrun with try_except ?m _ = _ => destruct m as [out0 [a|e0|c]] end;
        simpl in Hrun; discriminate.
    + right. destruct (Hloud code eq_refl) as [-> Hprinted].
      destruct out as [|l out]; [done|]. eauto.
Qed.

(** ** Lines of the diff *)

Lemma dropwhile_all {A} (p : A -> bool) (l k : list A) :
  Forall (fun x => p x = true) l -> dropwhile p (l ++ k) = dropwhile p k.
Proof. induction 1 as [|x l Hx _ IH]; [done|]. simpl. by rewrite Hx. Qed.

Lemma takewhile_all {A} (p : A -> bool) (l : list A) (y : A) (k : list A) :
  Forall (fun x => p x = true) l -> p y = false ->
  takewhile p (l ++ y :: k) = l.
Proof.
  intros Hl Hy. induction Hl as [|x l Hx _ IH]; simpl; [by rewrite Hy|].
  by rewrite Hx, IH.
Qed.

Lemma takewhile_Forall {A} (p : A -> bool) (l : list A) :
  Forall (fun x => p x = true) (takewhile p l).
Proof.
  induction l as [|x l IH]; simpl; [done|].
  destruct (p x) eqn:Hx; by constructor.
Qed.

Lemma dropwhile_head {A} (p : A -> bool) (l : list A) (x : A) (k : list A) :
  dropwhile p l = x :: k -> p x = false.
Proof.
  induction l as [|y l IH]; simpl; [done|].
  destruct (p y) eqn:Hy; [done|]. by intros [= -> _].
Qed.

(** A string that begins and ends with characters that are not blank is
    left alone by [strip]. *)
Lemma strip_clean (c d : codepoint) (s : pystr) :
  isspace c = false -> isspace d = false -> strip (c :: s ++ [d]) = c :: s ++ [d].
Proof.
  intros Hc Hd. unfold strip, lstrip, rstrip. simpl. rewrite Hc.
  change (c :: s ++ [d]) with ((c :: s) ++ [d]).
  rewrite reverse_app. simpl. rewrite Hd.
  change (d :: reverse (c :: s)) with (reverse [d] ++ reverse (c :: s)).
  by rewrite <- reverse_app, reverse_involutive.
Qed.

Lemma is_rule_file_shape (file_path : pystr) :
  is_rule_file file_path = true ->
  exists middle, file_path = str "r" ++ middle ++ str "l".
Proof.
  unfold is_rule_file, startswith, endswith.
  intros [Hstart [Hend Hlen%Nat.leb_le]%andb_prop]%andb_prop.
  apply bool_decide_eq_true in Hstart. apply bool_decide_eq_true in Hend.
  remember (length file_path - length (str ".xml"))%nat as k eqn:Hk. clear Hk Hlen.
  pose proof (take_drop k file_path) as Hsplit.
  rewrite Hend in Hsplit. clear Hend.
  destruct file_path as [|c rest]; [done|].
  simpl in Hstart. injection Hstart as -> _.
  destruct k as [|n]; [cbv in Hsplit; discriminate Hsplit|].
  exists (take n rest ++ str ".xm"). rewrite <- Hsplit at 1.
  simpl. by rewrite <- app_assoc.
Qed.

Lemma split_maxsplit1_fields (status blank rest : pystr) :
  status <> [] -> Forall (fun c => isspace c = false) status ->
  blank <> [] -> Forall (fun c => isspace c = true) blank ->
  (exists c k, rest = c :: k /\ isspace c = false) ->
  split_maxsplit1 (status ++ blank ++ rest) = [status; rest].
Proof.
  intros Hstatus Hnonblank Hblank Hblanks (c & k & -> & Hc).
  assert (Hnot : Forall (fun x => negb (isspace x) = true) status).
  { eapply Forall_impl; [done|]. by intros x ->. }
  destruct blank as [|b blank]; [done|]. apply Forall_cons in Hblanks as [Hb Hblanks].
  assert (Hfield : takewhile (fun x => negb (isspace x)) (status ++ (b :: blank) ++ c :: k)
                   = status).
  { apply takewhile_all; [done|by rewrite Hb]. }
  assert (Hrest : lstrip (dropwhile (fun x => negb (isspace x))
                            (status ++ (b :: blank) ++ c :: k)) = c :: k).
  { rewrite dropwhile_all by done. simpl. rewrite Hb. simpl. unfold lstrip. simpl.
    rewrite Hb, dropwhile_all by done. simpl. by rewrite Hc. }
  unfold split_maxsplit1.
  assert (Hlstrip : lstrip (status ++ (b :: blank) ++ c :: k)
                    = status ++ (b :: blank) ++ c :: k).
  { destruct status as [|s status]; [done|]. apply Forall_cons in Hnonblank as [Hs _].
    unfold lstrip. simpl. by rewrite Hs. }
  rewrite Hlstrip. clear Hlstrip.
  remember (status ++ (b :: blank) ++ c :: k) as l eqn:Hl.
  destruct l as [|x l]; [by destruct status|].
  cbv beta iota zeta. by rewrite Hfield, Hrest.
Qed.

Lemma split_maxsplit1_two (s a b : pystr) :
  split_maxsplit1 s = [a; b] ->
  a <> [] /\ Forall (fun c => isspace c = false) a.
Proof.
  unfold split_maxsplit1. destruct (lstrip s) as [|c s1] eqn:Hlstrip; [done|].
  apply dropwhile_head in Hlstrip as Hc.
  destruct (lstrip (dropwhile (fun x => negb (isspace x)) (c :: s1)));
    [done|]. intros [= <- _].
  split.
  - simpl. by rewrite Hc.
  - pose proof (takewhile_Forall (fun x => negb (isspace x)) (c :: s1)) as Hfield.
    eapply Forall_impl; [exact Hfield|]. simpl. intros x Hx.
    by apply negb_true_iff.
Qed.

(** X3: a line of the diff made of a status without blanks, a run of
    blanks and the path of a rule file gives that status and that path,
    blanks inside the path included; and every entry
    [changed_file_of_line] accepts has a non-empty status without blanks
    and the path of a rule file. *)
Theorem changed_file_of_line_fields (status blank file_path : pystr) :
  (status <> [] -> Forall (fun c => isspace c = false) status ->
   blank <> [] -> Forall (fun c => isspace c = true) blank ->
   is_rule_file file_path = true ->
   changed_file_of_line (status ++ blank ++ file_path)
   = Some (status, mk_path file_path))
  /\ (forall l path, changed_file_of_line l = Some (status, path) ->
        status <> [] /\ Forall (fun c => isspace c = false) status
        /\ exists accepted, path = mk_path accepted /\ is_rule_file accepted = true).
Proof.
  split.
  - intros Hstatus Hnonblank Hblank Hblanks Hrule.
    destruct (is_rule_file_shape _ Hrule) as [middle ->].
    assert (Hfields : split_maxsplit1 (status ++ blank ++ str "r" ++ middle ++ str "l")
                      = [status; str "r" ++ middle ++ str "l"]).
    { apply split_maxsplit1_fields; try done. by eexists _, _. }
    unfold changed_file_of_line.
    destruct status as [|s status]; [done|].
    apply Forall_cons in Hnonblank as Hs. destruct Hs as [Hs _].
    assert (Hstrip : strip ((s :: status) ++ blank ++ str "r" ++ middle ++ str "l")
                     = (s :: status) ++ blank ++ str "r" ++ middle ++ str "l").
    { replace ((s :: status) ++ blank ++ str "r" ++ middle ++ str "l")
        with (s :: (status ++ blank ++ str "r" ++ middle) ++ [108%N])
        by (simpl; by rewrite <- !app_assoc).
      by apply strip_clean. }
    rewrite Hstrip, Hfields. fold (is_rule_file (str "r" ++ middle ++ str "l")).
    by rewrite Hrule.
  - intros l path. unfold changed_file_of_line.
    destruct (split_maxsplit1 (strip l)) as [|a [|b [|? ?]]] eqn:Hsplit; try done.
    fold (is_rule_file b). destruct (is_rule_file b) eqn:Hrule; [|done].
    intros [= -> <-]. apply split_maxsplit1_two in Hsplit as [? ?]. eauto.
Qed.

Lemma changed_file_of_line_fields_witness :
  changed_file_of_line (str "M" ++ TAB ++ str "rules/my rule.xml")
  = Some (str "M", mk_path (str "rules/my rule.xml"))
  /\ (str "M" <> [] /\ Forall (fun c => isspace c = false) (str "M")
      /\ exists accepted, mk_path (str "rules/b.xml") = mk_path accepted
                          /\ is_rule_file accepted = true).
Proof.
  split.
  - apply (proj1 (changed_file_of_line_fields (str "M") TAB (str "rules/my rule.xml"))).
    + discriminate.
    + apply (bool_decide_unpack _). reflexivity.
    + discriminate.
    + apply (bool_decide_unpack _). reflexivity.
    + reflexivity.
  - apply (proj2 (changed_file_of_line_fields (str "M") TAB (str "rules/b.xml"))
             (str "M" ++ TAB ++ str "rules/b.xml") (mk_path (str "rules/b.xml"))).
    reflexivity.
Defined.

(** ** The run as a whole, on samples and at its edges *)

(** X4: when the diff lists no rule file, [main] prints its two lines and
    returns with status 0 without building the index: nothing else is
    asked of the version-control tool. *)
Theorem main_without_rule_changes {rt : Runtime} {w : World} (output : pystr) :
  subprocess_run GIT_DIFF = Returns output ->
  omap changed_file_of_line (splitlines (strip output)) = [] ->
  main = ([PStart; PNoRuleFilesChanged], Return tt) /\ exit_status main = 0.
Proof.
  intros Hdiff Hnone.
  assert (Hmain : main = ([PStart; PNoRuleFilesChanged], Return tt)).
  { apply (main_no_changes []). unfold get_changed_rule_files.
    fold GIT_DIFF. rewrite (run_git_command_ok _ _ Hdiff), bind_ret. by rewrite Hnone. }
  split; [done|]. unfold exit_status. by rewrite Hmain.
Qed.

Lemma main_without_rule_changes_witness :
  @subprocess_run world_diff_only [str "git"; str "fetch"; str "origin"; str "main"]
  = Raises (CalledProcessError (str "fatal: unable to access remote"))
  /\ @main sample_runtime world_diff_only = ([PStart; PNoRuleFilesChanged], Return tt)
  /\ exit_status (@main sample_runtime world_diff_only) = 0.
Proof.
  split; [reflexivity|].
  apply (@main_without_rule_changes sample_runtime world_diff_only
           (str "M" ++ TAB ++ str "README.md" ++ LF)).
  - reflexivity.
  - reflexivity.
Defined.

Lemma main_fails_at_witness :
  @main sample_runtime (world_of repo_three_changed)
  = ([PStart; PCheckingFiles [str "n.xml"; str "b.xml"; str "c.xml"];
      PCheckingFile (str "n.xml"); PRangeWarning [99999; 120001]; PRangeAdvice;
      PNoConflictsNew (str "n.xml");
      PCheckingFile (str "b.xml"); PConflictsDetected; PRuleIdFoundIn 100010;
      PFoundInFile (str "rules/a.xml")], SysExit 1)
  /\ exit_status (@main sample_runtime (world_of repo_three_changed)) = 1.
Proof.
  apply (@main_fails_at sample_runtime (world_of repo_three_changed)
           [(str "A", mk_path (str "rules/n.xml"))]
           [(str "M", mk_path (str "rules/c.xml"))]
           (str "A", mk_path (str "rules/b.xml")) sample_index [] [] 1).
  - reflexivity.
  - reflexivity.
  - intros c ->%list_elem_of_singleton. reflexivity.
  - reflexivity.
Defined.

Lemma main_passes_witness :
  @main sample_runtime (world_of (repo_modified [str "100020"; str "100021"]))
  = ([PStart; PCheckingFiles [str "c.xml"]; PCheckingFile (str "c.xml");
      PModifiedOk (str "c.xml"); PAllPassed], Return tt)
  /\ exit_status (@main sample_runtime
                    (world_of (repo_modified [str "100020"; str "100021"]))) = 0.
Proof.
  apply (@main_passes sample_runtime
           (world_of (repo_modified [str "100020"; str "100021"]))
           [(str "M", mk_path (str "rules/c.xml"))] sample_index [] []).
  - reflexivity.
  - discriminate.
  - reflexivity.
  - intros c ->%list_elem_of_singleton. reflexivity.
Defined.

(** X7: a changed file whose working copy cannot be read is skipped with
    a warning, whatever its status and the index: its check returns. A
    deleted file that is gone from the working tree is reported this way,
    not as deleted. *)
Theorem unreadable_file_is_skipped {rt : Runtime} {w : World}
    (idx : gmap Z (gset pystr)) (status : pystr) (path : Path) (e : exn) :
  read_text path = Raises e ->
  check_file idx (status, path)
  = ([PCheckingFile (name path); PCouldNotRead (name path) e], Return tt).
Proof. intros Hread. unfold check_file. by rewrite bind_print, Hread. Qed.

Lemma unreadable_file_is_skipped_witness :
  @check_file sample_runtime (world_of repo_added_conflict) sample_index
     (str "D", mk_path (str "rules/gone.xml"))
  = ([PCheckingFile (str "gone.xml");
      PCouldNotRead (str "gone.xml") (OtherException (str "No such file or directory"))],
     Return tt).
Proof.
  apply (@unreadable_file_is_skipped sample_runtime (world_of repo_added_conflict)
           sample_index (str "D") (mk_path (str "rules/gone.xml"))).
  reflexivity.
Defined.

(** X8: a changed file from which no identifier is extracted passes:
    after the lines of the extractor the check reports that no rule
    identifiers were found and returns, whatever the status and the
    index. Content that does not parse is such a file. *)
Theorem file_without_ids_passes {rt : Runtime} {w : World}
    (idx : gmap Z (gset pystr)) (status : pystr) (path : Path) (content : pystr) :
  read_text path = Returns content ->
  (ended (extract_rule_ids_from_xml content) = Return [] ->
   check_file idx (status, path)
   = (PCheckingFile (name path) :: printed (extract_rule_ids_from_xml content)
        ++ [PNoRuleIds (name path)], Return tt))
  /\ (forall msg, strip content <> [] ->
        fromstring (wrap content) = Raises (ParseError msg) ->
        check_file idx (status, path)
        = ([PCheckingFile (name path); PXmlParseError msg;
            PContentPreview (take 200 content); PNoRuleIds (name path)], Return tt)).
Proof.
  intros Hread.
  assert (Hnone : ended (extract_rule_ids_from_xml content) = Return [] ->
            check_file idx (status, path)
            = (PCheckingFile (name path) :: printed (extract_rule_ids_from_xml content)
                 ++ [PNoRuleIds (name path)], Return tt)).
  { intros Hended.
    by rewrite (check_file_read idx status path content
                  (printed (extract_rule_ids_from_xml content)) [])
      by (done || (rewrite <- Hended; apply run_eta)). }
  split; [done|]. intros msg Hstrip Hparse.
  assert (Hextract : extract_rule_ids_from_xml content
            = ([PXmlParseError msg; PContentPreview (take 200 content)], Return [])).
  { unfold extract_rule_ids_from_xml, extract_try. fold (wrap content).
    by rewrite bool_decide_eq_false_2, Hparse. }
  rewrite Hnone by by rewrite Hextract. by rewrite Hextract.
Qed.

Lemma file_without_ids_passes_witness :
  @check_file sample_runtime (world_of repo_malformed) sample_index
     (str "A", mk_path (str "rules/b.xml"))
  = ([PCheckingFile (str "b.xml");
      PXmlParseError (str "not well-formed (invalid token)");
      PContentPreview (str "<rule id='100010'>"); PNoRuleIds (str "b.xml")],
     Return tt).
Proof.
  apply (proj2 (@file_without_ids_passes sample_runtime (world_of repo_malformed)
                  sample_index (str "A") (mk_path (str "rules/b.xml"))
                  (str "<rule id='100010'>") eq_refl)
           (str "not well-formed (invalid token)")).
  - discriminate.
  - reflexivity.
Defined.

(** X9: a changed file whose status is none of [A], [M] and [D] (for
    instance [T], a type change) gets the range advisory and the duplicate
    check only: with identifiers free of duplicates its check returns
    without looking at the index. *)
Theorem other_status_is_not_reconciled {rt : Runtime} {w : World}
    (idx : gmap Z (gset pystr)) (status : pystr) (path : Path)
    (content : pystr) (out : list line) (dev_ids : list Z) :
  status <> str "A" -> status <> str "M" -> status <> str "D" ->
  read_text path = Returns content ->
  extract_rule_ids_from_xml content = (out, Return dev_ids) ->
  dev_ids <> [] -> NoDup dev_ids ->
  check_file idx (status, path)
  = (PCheckingFile (name path) :: out ++ range_lines dev_ids, Return tt).
Proof.
  intros HA HM HD Hread Hextract Hne Hnodup.
  rewrite (check_file_read idx status path content out dev_ids) by done.
  apply detect_duplicates_nil in Hnodup.
  destruct dev_ids as [|x dev_ids]; [done|].
  unfold check_ids. rewrite validate_rule_id_range_run, bind_return, Hnodup.
  rewrite !bool_decide_eq_false_2 by done.
  unfold printed, ended. simpl. by rewrite app_nil_r.
Qed.

Lemma other_status_is_not_reconciled_witness :
  @check_file sample_runtime (world_of repo_type_changed) sample_index
     (str "T", mk_path (str "rules/b.xml"))
  = ([PCheckingFile (str "b.xml")], Return tt).
Proof.
  apply (@other_status_is_not_reconciled sample_runtime (world_of repo_type_changed)
           sample_index (str "T") (mk_path (str "rules/b.xml"))
           (document_text [str "100010"]) [] [100010]).
  - discriminate.
  - discriminate.
  - discriminate.
  - reflexivity.
  - reflexivity.
  - discriminate.
  - apply NoDup_singleton.
Defined.

(** X10: a modified file that declares no identifier beyond those of its
    reference version passes whatever the index holds: dropping
    identifiers, reordering them or keeping them all never conflicts. *)
Theorem modified_file_without_new_ids_passes {rt : Runtime} {w : World}
    (idx : gmap Z (gset pystr)) (path : Path)
    (content : pystr) (out : list line) (dev_ids : list Z)
    (main_content : pystr) (out_main : list line) (main_ids : list Z) :
  read_text path = Returns content ->
  extract_rule_ids_from_xml content = (out, Return dev_ids) ->
  dev_ids <> [] -> NoDup dev_ids ->
  subprocess_run (git_show_main (as_posix path)) = Returns main_content ->
  extract_rule_ids_from_xml main_content = (out_main, Return main_ids) ->
  (forall x, x ∈ dev_ids -> x ∈ main_ids) ->
  exists last,
    check_file idx (str "M", path)
    = (PCheckingFile (name path) :: out ++ range_lines dev_ids ++ out_main ++ [last],
       Return tt)
    /\ (last = PUnchanged (name path) \/ last = PModifiedOk (name path)).
Proof.
  intros Hread Hextract Hne Hnodup Hshow Hmain Hsubset.
  rewrite (check_file_read idx (str "M") path content out dev_ids) by done.
  rewrite (check_ids_modified idx path dev_ids out_main main_ids);
    [|done|done|by rewrite (get_rule_ids_from_main_version_ok _ _ Hshow)].
  case_bool_decide; [by eexists; split; [|left]|].
  rewrite bool_decide_eq_true_2; [by eexists; split; [|right]|].
  apply set_eq. intros x. unfold set_of.
  rewrite elem_of_intersection, elem_of_difference, !elem_of_list_to_set.
  split; [|by intros ?%not_elem_of_empty]. intros [[Hdev Hnot] _].
  destruct Hnot. by apply Hsubset.
Qed.

Lemma modified_file_without_new_ids_passes_witness :
  exists last,
    @check_file sample_runtime (world_of repo_removed_id) sample_index
       (str "M", mk_path (str "rules/c.xml"))
    = ([PCheckingFile (str "c.xml"); last], Return tt)
    /\ (last = PUnchanged (str "c.xml") \/ last = PModifiedOk (str "c.xml")).
Proof.
  apply (@modified_file_without_new_ids_passes sample_runtime (world_of repo_removed_id)
           sample_index (mk_path (str "rules/c.xml"))
           (document_text [str "100020"]) [] [100020]
           (document_text [str "100020"; str "100021"]) [] [100020; 100021]).
  - reflexivity.
  - reflexivity.
  - discriminate.
  - apply NoDup_singleton.
  - reflexivity.
  - reflexivity.
  - intros x ->%list_elem_of_singleton. apply list_elem_of_here.
Defined.

(** ** More on the extractor *)

Lemma omap_cons_Some {A B} (f : A -> option B) (x : A) (y : B) (l : list A) :
  f x = Some y -> omap f (x :: l) = y :: omap f l.
Proof. intros Hx. simpl. by rewrite Hx. Qed.

Lemma omap_cons_None {A B} (f : A -> option B) (x : A) (l : list A) :
  f x = None -> omap f (x :: l) = omap f l.
Proof. intros Hx. simpl. by rewrite Hx. Qed.

Section ExtractorOrder.
Context {rt : Runtime}.

(** The loop returns the accepted identifiers of the elements it got
    through before leaving. *)
Lemma collect_rule_ids_prefix (rules : list Element) :
  exists k, (collect_rule_ids rules []).1 = omap accepted_id (take k rules).
Proof.
  induction rules as [|rule rules [k IH]]; [by exists 0%nat|].
  destruct (accepted_id rule) as [n|] eqn:Haccepted.
  - exists (S k). cbn [take]. rewrite (omap_cons_Some _ _ _ _ Haccepted).
    unfold accepted_id in Haccepted. cbn [collect_rule_ids].
    destruct (attrib rule !! str "id") as [rule_id|]; [|done].
    destruct (isdigit rule_id) eqn:Hdigit; [|done].
    rewrite (bool_decide_eq_false_2 (rule_id = [])) by by apply isdigit_nonempty.
    cbn [negb andb]. destruct (int rule_id) as [m|e]; [|done].
    injection Haccepted as ->. rewrite collect_rule_ids_acc. simpl. by rewrite IH.
  - pose proof (omap_cons_None _ _ (take k rules) Haccepted) as Hskip.
    unfold accepted_id in Haccepted. cbn [collect_rule_ids].
    destruct (attrib rule !! str "id") as [rule_id|];
      [|exists (S k); cbn [take]; by rewrite Hskip].
    destruct (isdigit rule_id) eqn:Hdigit.
    + rewrite (bool_decide_eq_false_2 (rule_id = [])) by by apply isdigit_nonempty.
      cbn [negb andb]. destruct (int rule_id) as [m|e]; [done|]. by exists 0%nat.
    + rewrite andb_false_r. exists (S k). cbn [take]. by rewrite Hskip.
Qed.

Lemma int_nonnegative (s : pystr) (n : Z) :
  (forall c d, todecimal c = Some d -> 0 <= d) ->
  int s = Returns n -> 0 <= n.
Proof.
  intros Hdecimal. unfold int. destruct (_ && _); [done|].
  destruct (mapM todecimal s) as [ds|] eqn:Hds; [|done]. intros [= <-].
  apply mapM_Some in Hds.
  assert (Hall : Forall (fun d => 0 <= d) ds).
  { clear -Hds Hdecimal. induction Hds; constructor; eauto. }
  clear Hds.
  assert (forall acc, 0 <= acc ->
                      0 <= foldl (fun acc d => 10 * acc + d) acc ds) as Hfold.
  { induction Hall as [|d ds Hd _ IH]; intros acc Hacc; [done|].
    simpl. apply IH. lia. }
  by apply Hfold.
Qed.

End ExtractorOrder.

(** X11: when the content parses and every identifier that passes the
    digit test converts, the extractor prints nothing and returns the
    identifiers of all [rule] elements that carry an accepted [id], in
    document order and with repetitions kept. *)
Theorem extract_document_order {rt : Runtime} (content : pystr) (root : Element) :
  strip content <> [] ->
  fromstring (wrap content) = Returns root ->
  (forall rule rule_id, rule ∈ findall_rule root ->
     attrib rule !! str "id" = Some rule_id -> isdigit rule_id = true ->
     exists n, int rule_id = Returns n) ->
  extract_rule_ids_from_xml content
  = ([], Return (omap accepted_id (findall_rule root))).
Proof.
  intros Hstrip Hroot Hconv.
  unfold extract_rule_ids_from_xml, extract_try. fold (wrap content).
  rewrite bool_decide_eq_false_2, Hroot by done.
  by rewrite (collect_rule_ids_convertible _ Hconv).
Qed.

Lemma extract_document_order_witness :
  @extract_rule_ids_from_xml sample_runtime
     (document_text [str "100050"; str "100050"])
  = ([], Return [100050; 100050]).
Proof.
  refine (@extract_document_order sample_runtime
            (document_text [str "100050"; str "100050"])
            (mkElement (str "root") ∅ (rule_element <$> [str "100050"; str "100050"]))
            _ _ _).
  - discriminate.
  - reflexivity.
  - intros rule rule_id Hrule Hid Hdigit. exists 100050.
    assert (Hrule' : rule = rule_element (str "100050")).
    { apply list_elem_of_In in Hrule. cbv in Hrule. by destruct Hrule as [<-|[<-|[]]]. }
    subst rule. injection Hid as <-. reflexivity.
Defined.

(** X12: whatever happens, the identifiers the extractor returns for
    content that parses are the accepted identifiers of an initial
    segment of its [rule] elements: each returned identifier is the value
    of the [id] of some [rule] element, and none is invented or
    reordered. *)
Theorem extract_returns_initial_segment {rt : Runtime} (content : pystr) (root : Element) :
  strip content <> [] ->
  fromstring (wrap content) = Returns root ->
  exists k ids,
    ended (extract_rule_ids_from_xml content) = Return ids
    /\ ids = omap accepted_id (take k (findall_rule root))
    /\ forall n, n ∈ ids ->
         exists rule, rule ∈ findall_rule root /\ accepted_id rule = Some n.
Proof.
  intros Hstrip Hroot.
  destruct (collect_rule_ids_prefix (findall_rule root)) as [k Hk].
  exists k, (omap accepted_id (take k (findall_rule root))).
  split_and!; [|done|].
  - rewrite extract_ended. unfold extract_try. fold (wrap content).
    by rewrite bool_decide_eq_false_2, Hroot, Hk.
  - intros n (rule & Hrule & Haccepted)%list_elem_of_omap.
    exists rule. split; [|done]. by eapply subseteq_take.
Qed.

Lemma extract_returns_initial_segment_witness :
  exists k ids,
    ended (@extract_rule_ids_from_xml sample_runtime
             (document_text [str "100001"; SUPERSCRIPT_TWO; str "100002"]))
    = Return ids
    /\ ids = omap (@accepted_id sample_runtime)
               (take k (findall_rule
                          (mkElement (str "root") ∅
                             (rule_element <$>
                                [str "100001"; SUPERSCRIPT_TWO; str "100002"]))))
    /\ forall n, n ∈ ids ->
         exists rule,
           rule ∈ findall_rule
                    (mkElement (str "root") ∅
                       (rule_element <$> [str "100001"; SUPERSCRIPT_TWO; str "100002"]))
           /\ @accepted_id sample_runtime rule = Some n.
Proof.
  apply (@extract_returns_initial_segment sample_runtime
           (document_text [str "100001"; SUPERSCRIPT_TWO; str "100002"])).
  - discriminate.
  - reflexivity.
Defined.


(** X14: with a digit table whose decimal values are not negative, every
    identifier the extractor returns is a non-negative integer. *)
Theorem extract_ids_nonnegative {rt : Runtime} (content : pystr) (ids : list Z) :
  (forall c d, todecimal c = Some d -> 0 <= d) ->
  ended (extract_rule_ids_from_xml content) = Return ids ->
  Forall (fun n => 0 <= n) ids.
Proof.
  intros Hdecimal. rewrite extract_ended. intros [= <-].
  unfold extract_try. case_bool_decide; [done|].
  destruct (fromstring _) as [root|e]; [|done].
  destruct (collect_rule_ids_prefix (findall_rule root)) as [k ->].
  apply Forall_forall. intros n (rule & _ & Haccepted)%list_elem_of_omap.
  unfold accepted_id in Haccepted.
  destruct (attrib rule !! str "id") as [rule_id|]; [|done].
  destruct (isdigit rule_id); [|done].
  destruct (int rule_id) as [m|] eqn:Hint; [|done]. injection Haccepted as ->.
  by apply (int_nonnegative rule_id).
Qed.

Lemma extract_ids_nonnegative_witness :
  Forall (fun n => 0 <= n) [100030].
Proof.
  apply (@extract_ids_nonnegative sample_runtime
           (document_text [str "100030"; str "abc"; str "12a"]) [100030]).
  - intros c d. simpl. unfold sample_todecimal.
    destruct ((48 <=? c)%N && (c <=? 57)%N) eqn:Hascii.
    { intros [= Hd]. apply andb_prop in Hascii as [Hlow%N.leb_le _]. lia. }
    destruct ((1632 <=? c)%N && (c <=? 1641)%N) eqn:Harabic; [|done].
    intros [= Hd]. apply andb_prop in Harabic as [Hlow%N.leb_le _]. lia.
  - reflexivity.
Defined.

(** ** More on the reports *)

Lemma sorted_ids_increasing (l : list Z) :
  NoDup l -> StronglySorted Z.lt (sorted_ids l).
Proof.
  intros Hnodup.
  assert (Hnodup' : NoDup (sorted_ids l)).
  { unfold sorted_ids. by rewrite merge_sort_Permutation. }
  assert (Hsorted : StronglySorted Z.le (sorted_ids l)).
  { apply StronglySorted_merge_sort; apply _. }
  induction Hsorted as [|x k Hk IH Hx]; [constructor|].
  apply NoDup_cons in Hnodup' as [Hnotin Hnodup']. constructor; [by apply IH|].
  apply Forall_forall. intros y Hy.
  rewrite Forall_forall in Hx. specialize (Hx y Hy).
  assert (x <> y) by (by intros ->). lia.
Qed.

Lemma Counter_duplicates_NoDup (c : list (Z * nat)) :
  NoDup c.*1 ->
  NoDup (omap (fun '(rule_id, count) => if (1 <? count)%nat then Some rule_id else None) c).
Proof.
  induction c as [|[k n] c IH]; csimpl; [constructor|].
  rewrite NoDup_cons. intros [Hk Hc]. destruct (1 <? n)%nat; [|by apply IH].
  apply NoDup_cons. split; [|by apply IH].
  intros ([k' n'] & Hin & Hsome)%list_elem_of_omap.
  destruct (1 <? n')%nat; [|done]. injection Hsome as ->.
  apply Hk. apply list_elem_of_fmap. by exists (k, n').
Qed.

(** X15: [detect_duplicates] names each repeated value once: its result
    has no repetition, holds exactly the values that occur more than once
    in the list, and is empty exactly when the list has no repetition; so
    the duplicate report lists the repeated identifiers in strictly
    increasing order. *)
Theorem detect_duplicates_names_each_once (rule_ids : list Z) :
  NoDup (detect_duplicates rule_ids)
  /\ (forall x, x ∈ detect_duplicates rule_ids
                <-> (1 < count_occ Z.eq_dec rule_ids x)%nat)
  /\ (detect_duplicates rule_ids = [] <-> NoDup rule_ids)
  /\ StronglySorted Z.lt (sorted_ids (detect_duplicates rule_ids)).
Proof.
  assert (Hnodup : NoDup (detect_duplicates rule_ids)).
  { apply Counter_duplicates_NoDup, Counter_counts. }
  split_and!; [done| | |by apply sorted_ids_increasing].
  - apply elem_of_detect_duplicates.
  - apply detect_duplicates_nil.
Qed.

Lemma omap_reported_id_files (files : list pystr) :
  omap reported_id (PFoundInFile <$> files) = [].
Proof. induction files; [done|]. by csimpl. Qed.

(** X16: [print_conflicts] always returns, and the identifiers it
    announces are exactly the conflicting ones, each once, in strictly
    increasing order. *)
Theorem print_conflicts_announces_sorted (conflicting_ids : gset Z)
    (idx : gmap Z (gset pystr)) :
  ended (print_conflicts conflicting_ids idx) = Return tt
  /\ omap reported_id (printed (print_conflicts conflicting_ids idx))
     = sorted_ids (elements conflicting_ids)
  /\ StronglySorted Z.lt (sorted_ids (elements conflicting_ids))
  /\ (forall x, x ∈ sorted_ids (elements conflicting_ids) <-> x ∈ conflicting_ids).
Proof.
  rewrite print_conflicts_run. split_and!; [done| | |].
  - unfold printed, conflict_lines. cbn [fst].
    rewrite omap_cons_None by done.
    induction (sorted_ids (elements conflicting_ids)) as [|x l IH]; [done|].
    cbn [flat_map app]. rewrite (omap_cons_Some reported_id _ x) by done.
    by rewrite omap_app, omap_reported_id_files, IH.
  - apply sorted_ids_increasing, NoDup_elements.
  - intros x. by rewrite elem_of_sorted_ids, elem_of_elements.
Qed.

(** ** More on the reference index *)

Section IndexContents.
Context {rt : Runtime} {w : World}.

Lemma add_files_owned (file : pystr) (rule_ids : list Z) (m : gmap Z (gset pystr)) :
  (forall rule_id s, m !! rule_id = Some s -> s <> ∅) ->
  forall rule_id s, foldl (add_file file) m rule_ids !! rule_id = Some s -> s <> ∅.
Proof.
  revert m. induction rule_ids as [|x rule_ids IH]; intros m Hm; [done|].
  simpl. apply IH. intros rule_id s. unfold add_file.
  destruct (decide (x = rule_id)) as [->|Hne].
  - rewrite lookup_insert_eq. intros [= <-] Hempty.
    assert (Hin : file ∈ default (∅ : gset pystr) (m !! rule_id) ∪ {[file]}).
    { apply elem_of_union_r. by apply elem_of_singleton. }
    rewrite Hempty in Hin. by apply not_elem_of_empty in Hin.
  - rewrite lookup_insert_ne by done. apply Hm.
Qed.

(** Every key of the index is owned by at least one file. *)
Lemma index_files_owned (xml_files : list pystr) (m idx : gmap Z (gset pystr))
    (out : list line) :
  (forall rule_id s, m !! rule_id = Some s -> s <> ∅) ->
  index_files xml_files m = (out, Return idx) ->
  forall rule_id s, idx !! rule_id = Some s -> s <> ∅.
Proof.
  revert m out. induction xml_files as [|file xml_files IH]; intros m out Hm Hrun.
  - by injection Hrun as _ <-.
  - destruct (subprocess_run (git_show_main file)) as [content|e] eqn:Hshow.
    + rewrite (index_files_step _ _ _ _ Hshow) in Hrun.
      apply bind_return_inv in Hrun as (out1 & rule_ids & out2 & _ & Hrest & _).
      apply (IH _ _ (add_files_owned file rule_ids m Hm) Hrest).
    + exfalso. simpl in Hrun. unfold run_git_command in Hrun. rewrite Hshow in Hrun.
      by destruct e.
Qed.

Lemma get_rule_ids_from_main_version_returned (path : Path) (out : list line)
    (main_ids : list Z) :
  get_rule_ids_from_main_version path = (out, Return main_ids) ->
  exists content,
    subprocess_run (git_show_main (as_posix path)) = Returns content
    /\ extract_rule_ids_from_xml content = (out, Return main_ids).
Proof.
  destruct (subprocess_run (git_show_main (as_posix path))) as [content|e] eqn:Hshow.
  - rewrite (get_rule_ids_from_main_version_ok _ _ Hshow). by exists content.
  - unfold get_rule_ids_from_main_version, run_git_command. rewrite Hshow.
    by destruct e.
Qed.

End IndexContents.

(** X17: the index the builder returns is exact. A file owns an
    identifier exactly when it is a rule file of the tree listing whose
    fetched content yields that identifier, and the keys of the index are
    exactly the identifiers that some file owns: no key has an empty file
    set. *)
Theorem index_owners_exact {rt : Runtime} {w : World}
    (out : list line) (idx : gmap Z (gset pystr)) :
  get_rule_ids_per_file_in_main = (out, Return idx) ->
  exists files_output,
    subprocess_run GIT_LS_TREE = Returns files_output
    /\ (forall rule_id f,
          f ∈ owners idx rule_id <->
          f ∈ rule_files_of files_output
          /\ exists content ids,
               subprocess_run (git_show_main f) = Returns content
               /\ ended (extract_rule_ids_from_xml content) = Return ids
               /\ rule_id ∈ ids)
    /\ (forall rule_id, rule_id ∈ dom idx <-> exists f, f ∈ owners idx rule_id).
Proof.
  intros Hrun.
  apply get_rule_ids_per_file_in_main_returned in Hrun
    as (files_output & out' & Hls & Hloop).
  exists files_output. split_and!; [done| |].
  - intros rule_id f. rewrite (index_files_returned _ _ _ _ Hloop rule_id f).
    fold (rule_files_of files_output). split.
    + intros [Hempty|(Hin & content & Hshow & Hid)].
      * unfold owners in Hempty. rewrite lookup_empty in Hempty.
        by apply not_elem_of_empty in Hempty.
      * split; [done|]. exists content, (extract_try content).1.
        by rewrite extract_ended.
    + intros (Hin & content & ids & Hshow & Hids & Hid). right. split; [done|].
      exists content. split; [done|]. rewrite extract_ended in Hids.
      by injection Hids as ->.
  - intros rule_id. rewrite elem_of_dom. unfold owners. split.
    + intros [s Hs]. rewrite Hs. simpl.
      apply set_choose_L.
      assert (Hempty : forall i (s0 : gset pystr),
                 (∅ : gmap Z (gset pystr)) !! i = Some s0 -> s0 <> ∅).
      { intros i s0 H. by rewrite lookup_empty in H. }
      exact (index_files_owned _ _ _ _ Hempty Hloop rule_id s Hs).
    + intros [f Hf]. destruct (idx !! rule_id); [done|].
      by apply not_elem_of_empty in Hf.
Qed.

Lemma index_owners_exact_witness :
  exists files_output,
    @subprocess_run (world_of repo_added_conflict) GIT_LS_TREE = Returns files_output
    /\ (forall rule_id f,
          f ∈ owners {[ 100010 := {[ str "rules/a.xml" ]} ]} rule_id <->
          f ∈ rule_files_of files_output
          /\ exists content ids,
               @subprocess_run (world_of repo_added_conflict) (git_show_main f)
               = Returns content
               /\ ended (@extract_rule_ids_from_xml sample_runtime content) = Return ids
               /\ rule_id ∈ ids)
    /\ (forall rule_id,
          rule_id ∈ dom ({[ 100010 := {[ str "rules/a.xml" ]} ]} : gmap Z (gset pystr))
          <-> exists f, f ∈ owners {[ 100010 := {[ str "rules/a.xml" ]} ]} rule_id).
Proof.
  apply (@index_owners_exact sample_runtime (world_of repo_added_conflict) []).
  reflexivity.
Defined.

(** X18: the index holds a listed file's own reference identifiers. For
    a path among the rule files of the tree listing, every identifier
    that [get_rule_ids_from_main_version] returns is a key of the index
    and has that path among its owners; this is why a modified file is
    checked on its new identifiers only. *)
Theorem reference_ids_are_indexed {rt : Runtime} {w : World}
    (out out_main : list line) (idx : gmap Z (gset pystr)) (files_output : pystr)
    (path : Path) (main_ids : list Z) :
  get_rule_ids_per_file_in_main = (out, Return idx) ->
  subprocess_run GIT_LS_TREE = Returns files_output ->
  as_posix path ∈ rule_files_of files_output ->
  get_rule_ids_from_main_version path = (out_main, Return main_ids) ->
  forall rule_id, rule_id ∈ main_ids ->
    as_posix path ∈ owners idx rule_id /\ rule_id ∈ dom idx.
Proof.
  intros Hrun Hls Hlisted Hmain rule_id Hid.
  apply get_rule_ids_per_file_in_main_returned in Hrun
    as (files_output' & out' & Hls' & Hloop).
  unfold GIT_LS_TREE in Hls. rewrite Hls in Hls'. injection Hls' as <-.
  apply get_rule_ids_from_main_version_returned in Hmain as (content & Hshow & Hextract).
  assert (Hown : as_posix path ∈ owners idx rule_id).
  { apply (index_files_returned _ _ _ _ Hloop). right. split; [done|].
    exists content. split; [done|].
    pose proof (extract_ended content) as Hended. rewrite Hextract in Hended.
    by injection Hended as <-. }
  split; [done|]. apply elem_of_dom. unfold owners in Hown.
  destruct (idx !! rule_id); [done|]. by apply not_elem_of_empty in Hown.
Qed.

Lemma reference_ids_are_indexed_witness :
  str "rules/c.xml" ∈ owners sample_index 100020 /\ 100020 ∈ dom sample_index.
Proof.
  apply (@reference_ids_are_indexed sample_runtime
           (world_of (repo_modified [str "100020"; str "100021"]))
           [] [] sample_index
           (str "rules/a.xml" ++ LF ++ str "rules/c.xml" ++ LF)
           (mk_path (str "rules/c.xml")) [100020]).
  - reflexivity.
  - reflexivity.
  - apply (bool_decide_unpack _). reflexivity.
  - reflexivity.
  - apply list_elem_of_here.
Defined.

(** ** What the script never prints *)

Section Silent.
Context (P : line -> Prop).

Lemma silent_bind {A B} (m : run A) (k : A -> run B) :
  Forall P (printed m) -> (forall a, Forall P (printed (k a))) ->
  Forall P (printed (bind m k)).
Proof.
  intros Hm Hk. destruct m as [out [a|e|c]]; [|done|done].
  rewrite bind_return. apply Forall_app. by split.
Qed.

Lemma silent_try_except {A} (m : run A) (h : exn -> option (run A)) :
  Forall P (printed m) -> (forall e k, h e = Some k -> Forall P (printed k)) ->
  Forall P (printed (try_except m h)).
Proof.
  intros Hm Hh. destruct m as [out [a|e|c]]; [done| |done].
  simpl. destruct (h e) as [[out' r]|] eqn:Hhandler; [|done].
  apply Forall_app. split; [done|]. apply (Hh e _ Hhandler).
Qed.

Lemma silent_for_each {A} (xs : list A) (body : A -> run unit) :
  (forall x, Forall P (printed (body x))) -> Forall P (printed (for_each xs body)).
Proof.
  intros Hbody. induction xs as [|x xs IH]; [by constructor|].
  simpl. by apply silent_bind.
Qed.

End Silent.

Section NeverWarns.
Context {rt : Runtime} {w : World}.

Local Abbreviation quiet m :=
  (Forall (fun l => is_could_not_read_main l = false) (printed m)).

Lemma quiet_run_git_command (args : list pystr) : quiet (run_git_command args).
Proof.
  unfold run_git_command. destruct (subprocess_run args) as [stdout|[]];
    simpl; repeat constructor.
Qed.

Lemma quiet_extract (content : pystr) : quiet (extract_rule_ids_from_xml content).
Proof.
  destruct (extract_printed content) as [->|[[msg ->]|[e ->]]]; repeat constructor.
Qed.

Lemma quiet_index_files (xml_files : list pystr) (m : gmap Z (gset pystr)) :
  quiet (index_files xml_files m).
Proof.
  revert m. induction xml_files as [|file xml_files IH]; intros m; [by constructor|].
  destruct (subprocess_run (git_show_main file)) as [content|e] eqn:Hshow.
  - rewrite (index_files_step _ _ _ _ Hshow).
    apply silent_bind; [apply quiet_extract|done].
  - simpl. unfold run_git_command. rewrite Hshow.
    destruct e; simpl; repeat constructor.
Qed.

Lemma quiet_get_rule_ids_from_main_version (path : Path) :
  quiet (get_rule_ids_from_main_version path).
Proof.
  apply silent_try_except.
  - apply silent_bind; [apply quiet_run_git_command|]. intros content. apply quiet_extract.
  - intros [] k [= <-]. constructor.
Qed.

Lemma quiet_check_ids (idx : gmap Z (gset pystr)) (status : pystr) (path : Path)
    (dev_ids : list Z) :
  quiet (check_ids idx status path dev_ids).
Proof.
  assert (Hconflict : forall c, quiet (print_conflicts c idx ;; sys_exit 1 : run unit)).
  { intros c. rewrite print_conflicts_run, bind_return. unfold printed, conflict_lines.
    cbn [fst]. rewrite app_nil_r. constructor; [done|].
    induction (sorted_ids (elements c)) as [|x l IH]; [constructor|].
    cbn [flat_map]. apply Forall_app. split; [|done]. constructor; [done|].
    by apply Forall_fmap, Forall_true. }
  unfold check_ids. destruct dev_ids as [|x dev_ids]; [repeat constructor|].
  apply silent_bind.
  { rewrite validate_rule_id_range_run. unfold range_lines.
    destruct (filter _ _); repeat constructor. }
  intros _. cbv zeta. destruct (detect_duplicates (x :: dev_ids)); [|repeat constructor].
  repeat case_bool_decide; try apply Hconflict; try (repeat constructor; fail).
  apply silent_bind; [apply quiet_get_rule_ids_from_main_version|].
  intros main_ids.
  repeat case_bool_decide; try apply Hconflict; repeat constructor.
Qed.

Lemma quiet_main : quiet main.
Proof.
  unfold main. apply silent_bind; [repeat constructor|]. intros _.
  apply silent_bind.
  { apply silent_try_except.
    - apply silent_bind; [apply quiet_run_git_command|]. intros output. constructor.
    - intros e k [= <-]. repeat constructor. }
  intros [|changed changed_files]; [repeat constructor|].
  apply silent_bind.
  { apply silent_try_except.
    - apply silent_bind; [apply quiet_run_git_command|]. intros _.
      apply silent_bind; [apply quiet_run_git_command|]. intros files_output.
      apply quiet_index_files.
    - intros e k [= <-]. repeat constructor. }
  intros idx. apply silent_bind; [repeat constructor|]. intros _.
  apply silent_bind; [|repeat constructor].
  apply silent_for_each. intros [status path]. unfold check_file.
  apply silent_bind; [repeat constructor|]. intros _.
  apply silent_bind.
  - apply silent_try_except.
    + apply silent_bind; [destruct (read_text path); constructor|]. intros content.
      apply silent_bind; [apply quiet_extract|]. intros dev_ids. constructor.
    + intros e k [= <-]. repeat constructor.
  - intros [dev_ids|]; [apply quiet_check_ids|constructor].
Qed.

End NeverWarns.

(** X19: no run ever prints the warning that a file could not be read
    from the main branch: whatever the repository, a reference file is
    either fetched or ends the process. *)
Theorem could_not_read_main_is_never_printed {rt : Runtime} {w : World} :
  Forall (fun l => is_could_not_read_main l = false) (printed main)
  /\ filter (fun l => is_could_not_read_main l = true) (printed main) = [].
Proof.
  pose proof quiet_main as Hquiet. split; [done|].
  induction Hquiet as [|l out Hl _ IH]; [done|].
  rewrite filter_cons. case_decide as Hwarn; [congruence|done].
Qed.

(** ** The index and the order of the tree listing *)

Section IndexOrder.
Context {rt : Runtime} {w : World}.

Lemma index_files_fetched (xml_files : list pystr) (m idx : gmap Z (gset pystr))
    (out : list line) :
  index_files xml_files m = (out, Return idx) ->
  forall f, f ∈ xml_files ->
    exists content, subprocess_run (git_show_main f) = Returns content.
Proof.
  revert m out. induction xml_files as [|file xml_files IH]; intros m out Hrun f Hf.
  - by apply elem_of_nil in Hf.
  - destruct (subprocess_run (git_show_main file)) as [content|e] eqn:Hshow.
    + apply elem_of_cons in Hf as [->|Hf]; [by exists content|].
      rewrite (index_files_step _ _ _ _ Hshow) in Hrun.
      apply bind_return_inv in Hrun as (out1 & rule_ids & out2 & _ & Hrest & _).
      by apply (IH _ _ Hrest).
    + exfalso. simpl in Hrun. unfold run_git_command in Hrun. rewrite Hshow in Hrun.
      by destruct e.
Qed.

Lemma index_files_returns (xml_files : list pystr) (m : gmap Z (gset pystr)) :
  (forall f, f ∈ xml_files ->
     exists content, subprocess_run (git_show_main f) = Returns content) ->
  exists out idx, index_files xml_files m = (out, Return idx).
Proof.
  revert m. induction xml_files as [|file xml_files IH]; intros m Hfetched.
  - by exists [], m.
  - destruct (Hfetched file) as [content Hshow]; [by left|].
    rewrite (index_files_step _ _ _ _ Hshow).
    rewrite (run_eta (extract_rule_ids_from_xml content)), extract_ended, bind_return.
    destruct (IH (foldl (add_file file) m (extract_try content).1)) as (out & idx & ->).
    { intros f Hf. apply Hfetched. by right. }
    by eexists _, _.
Qed.

Lemma index_lookup_owners (idx : gmap Z (gset pystr)) (rule_id : Z) :
  (forall i s, idx !! i = Some s -> s <> ∅) ->
  idx !! rule_id
  = if bool_decide (owners idx rule_id = ∅) then None else Some (owners idx rule_id).
Proof.
  intros Howned. unfold owners. destruct (idx !! rule_id) as [s|] eqn:Hs; simpl.
  - by rewrite bool_decide_eq_false_2 by by apply (Howned rule_id).
  - by rewrite bool_decide_eq_true_2.
Qed.

End IndexOrder.

(** X21: the index does not depend on the order of the tree listing: if
    the loop over the rule files returns an index, it returns the same
    index for every rearrangement of the files. *)
Theorem index_files_order_irrelevant {rt : Runtime} {w : World}
    (xml_files xml_files' : list pystr) (out : list line) (idx : gmap Z (gset pystr)) :
  index_files xml_files ∅ = (out, Return idx) ->
  xml_files ≡ₚ xml_files' ->
  exists out', index_files xml_files' ∅ = (out', Return idx).
Proof.
  intros Hrun Hperm.
  destruct (index_files_returns xml_files' ∅) as (out' & idx' & Hrun').
  { intros f Hf. apply (index_files_fetched _ _ _ _ Hrun). by rewrite Hperm. }
  exists out'. rewrite Hrun'. do 2 f_equal.
  assert (Hempty : forall i (s : gset pystr),
             (∅ : gmap Z (gset pystr)) !! i = Some s -> s <> ∅).
  { intros i s H. by rewrite lookup_empty in H. }
  assert (Howners : forall rule_id, owners idx' rule_id = owners idx rule_id).
  { intros rule_id. apply set_eq. intros f.
    rewrite (index_files_returned _ _ _ _ Hrun rule_id f).
    rewrite (index_files_returned _ _ _ _ Hrun' rule_id f).
    by rewrite Hperm. }
  apply map_eq. intros rule_id.
  rewrite (index_lookup_owners idx' rule_id (index_files_owned _ _ _ _ Hempty Hrun')).
  rewrite (index_lookup_owners idx rule_id (index_files_owned _ _ _ _ Hempty Hrun)).
  by rewrite Howners.
Qed.

Lemma index_files_order_irrelevant_witness :
  exists out',
    @index_files sample_runtime (world_of (repo_modified [str "100020"]))
       [str "rules/c.xml"; str "rules/a.xml"] ∅
    = (out', Return sample_index).
Proof.
  apply (@index_files_order_irrelevant sample_runtime
           (world_of (repo_modified [str "100020"]))
           [str "rules/a.xml"; str "rules/c.xml"]
           [str "rules/c.xml"; str "rules/a.xml"] []).
  - reflexivity.
  - apply Permutation_swap.
Defined.

(** ** Identifiers as numbers *)

(** X22: identifiers are compared as numbers, so leading zeros do not
    distinguish them: below the length at which the interpreter's limit
    can apply, an identifier with a zero digit in front converts to the
    same integer as without it. *)
Theorem int_ignores_leading_zero {rt : Runtime} (zero : codepoint) (s : pystr) (n : Z) :
  todecimal zero = Some 0 ->
  (length s < 640)%nat ->
  int s = Returns n ->
  int (zero :: s) = Returns n.
Proof.
  intros Hzero Hshort. unfold int.
  assert (Hlimit : forall t : pystr, (length t <= 640)%nat ->
            (640 <? length t)%nat && (0 <? int_max_str_digits)%nat
            && (int_max_str_digits <? length t)%nat = false).
  { intros t Ht. apply (proj2 (Nat.ltb_ge _ _)) in Ht. by rewrite Ht. }
  rewrite (Hlimit s) by lia. rewrite (Hlimit (zero :: s)) by (simpl; lia).
  csimpl. rewrite Hzero. csimpl.
  destruct (mapM todecimal s) as [ds|]; [|done]. csimpl. done.
Qed.

Lemma int_ignores_leading_zero_witness :
  @int sample_runtime (str "0100010") = Returns 100010.
Proof.
  apply (@int_ignores_leading_zero sample_runtime 48%N (str "100010") 100010).
  - reflexivity.
  - apply (bool_decide_unpack _). reflexivity.
  - reflexivity.
Defined.
